(** * The billing-FAQ vector-search notebook, embedded in Rocq

    The repository is one Databricks notebook,
    [example_create_vector_search.py].  It is sequential orchestration over
    an external platform (Spark, the vector-search client): write a table,
    create an endpoint, create a delta-sync index, poll it until it is
    ONLINE, then issue two similarity queries.

    The platform is not part of the repository, so it is a parameter of the
    development: a record [Platform] of operations over an abstract world,
    each of which returns a value or raises a Python exception.  The notebook
    itself is translated statement by statement into a small state-and-
    exception monad that threads the platform's world, records every call
    that was made (with the exception it raised, if any) and collects what
    the notebook printed.  The only loop of the notebook, the readiness
    polling loop, has no bound in the source; it is translated with fuel,
    and running out of fuel is kept apart from returning and from raising. *)

From Stdlib Require Import String Ascii List ZArith Lia Bool.
Import ListNotations.

Open Scope string_scope.
Open Scope Z_scope.

(** ** Python strings *)

Module PyStr.

(** [s.startswith(p)] *)
Definition startswith (s p : string) : bool := String.prefix p s.

(** [sub in s]: [sub] occurs in [s] as a contiguous substring. *)
Fixpoint str_in (sub s : string) : bool :=
  match s with
  | EmptyString => String.prefix sub EmptyString
  | String _ s' => String.prefix sub s || str_in sub s'
  end.

(** The double quote and the line feed, which string literals of this
    file do not spell. *)
Definition dq : string := String "034"%char EmptyString.
Definition nl : string := String "010"%char EmptyString.

(** A JSON member ["key":"value"], as it appears in a response body. *)
Definition json_member (key value : string) : string :=
  dq ++ key ++ dq ++ ":" ++ dq ++ value ++ dq.

End PyStr.
Import PyStr.

(** ** Exceptions and outcomes *)

(** An instance of (a subclass of) Python's [Exception]: what
    [except Exception as e] binds.  [exc_str] is [str(e)]. *)
Record PyExc : Type := mkExc { exc_class : string; exc_str : string }.

(** What a platform call gives back. *)
Inductive Reply (A : Type) : Type :=
| Ret (a : A)
| Exc (e : PyExc).
Arguments Ret {A} a.
Arguments Exc {A} e.

(** What running a piece of the notebook with some fuel gives: it returned,
    it raised, or the fuel ran out while the polling loop was still going. *)
Inductive Outcome (A : Type) : Type :=
| Returned (a : A)
| Raised (e : PyExc)
| Running.
Arguments Returned {A} a.
Arguments Raised {A} e.
Arguments Running {A}.

(** ** Values exchanged with the platform *)

(** A pandas/Spark data frame: column names and rows [(index, faq)]. *)
Record DataFrame : Type := mkDF { df_columns : list string; df_rows : list (Z * string) }.

(** The keyword arguments of [create_delta_sync_index]. *)
Module IndexArgs.
Record t : Type := mk {
  endpoint_name : string;
  index_name : string;
  source_table_name : string;
  pipeline_type : string;
  primary_key : string;
  embedding_source_column : string;
  embedding_model_endpoint_name : string
}.
End IndexArgs.

(** The client-side index object: a reference to an index by name. *)
Record IndexHandle : Type := mkHandle { h_endpoint : string; h_name : string }.

(** The part of the dictionary returned by [describe()] that the notebook
    reads: [d.get('status')] and, inside it, [.get('detailed_state')];
    a missing key reads as [None]. *)
Record StatusDict : Type := mkStatus { detailed_state : option string }.
Record DescribeDict : Type := mkDescribe { status : option StatusDict }.

(** The keyword arguments of [similarity_search]. *)
Module SearchArgs.
Record t : Type := mk {
  query_text : string;
  columns : list string;
  type : string;
  num_results : Z
}.
End SearchArgs.

(** The rows of a search result, restricted to the requested columns. *)
Definition SearchResults : Type := list (Z * string).

(** ** The platform *)

Record Platform : Type := mkPlatform {
  World : Type;
  pip_install : string -> World -> Reply unit * World;
  restartPython : World -> Reply unit * World;
  saveAsTable : string -> string -> string -> DataFrame -> World -> Reply unit * World;
  spark_sql : string -> World -> Reply DataFrame * World;
  display : DataFrame -> World -> Reply unit * World;
  VectorSearchClient : bool -> World -> Reply unit * World;
  create_endpoint_and_wait : string -> string -> World -> Reply unit * World;
  create_delta_sync_index : IndexArgs.t -> World -> Reply IndexHandle * World;
  describe : IndexHandle -> World -> Reply DescribeDict * World;
  sleep : Z -> World -> World;
  get_index : string -> string -> World -> Reply IndexHandle * World;
  similarity_search : IndexHandle -> SearchArgs.t -> World -> Reply SearchResults * World
}.

(** The calls the notebook makes, as they are recorded in the trace. *)
Inductive Call : Type :=
| CPipInstall (args : string)
| CRestartPython
| CSaveAsTable (format mode table : string) (df : DataFrame)
| CSparkSql (query : string)
| CDisplay (df : DataFrame)
| CVectorSearchClient (disable_notice : bool)
| CCreateEndpointAndWait (name endpoint_type : string)
| CCreateDeltaSyncIndex (args : IndexArgs.t)
| CDescribe (index : IndexHandle)
| CSleep (seconds : Z)
| CGetIndex (endpoint index : string)
| CSimilaritySearch (index : IndexHandle) (args : SearchArgs.t).

(** A trace entry: the call and the exception it raised, [None] when it
    returned. *)
Definition Event : Type := (Call * option PyExc)%type.

Definition returned (c : Call) : Event := (c, None).
Definition raised (c : Call) (e : PyExc) : Event := (c, Some e).

(** ** The notebook monad *)

Record Run (W : Type) : Type := mkRun {
  world : W;
  trace : list Event;
  stdout : list string
}.
Arguments mkRun {W} world trace stdout.
Arguments world {W} r.
Arguments trace {W} r.
Arguments stdout {W} r.

Definition M (W A : Type) : Type := Run W -> Outcome A * Run W.

Definition ret {W A} (a : A) : M W A := fun s => (Returned a, s).

Definition bind {W A B} (m : M W A) (k : A -> M W B) : M W B :=
  fun s =>
    match m s with
    | (Returned a, s') => k a s'
    | (Raised e, s') => (Raised e, s')
    | (Running, s') => (Running, s')
    end.

Declare Scope nb_scope.
Delimit Scope nb_scope with nb.
Notation "x <- m ;; k" := (bind m (fun x => k))
  (at level 100, m at next level, right associativity) : nb_scope.
Notation "m ;; k" := (bind m (fun _ => k))
  (at level 100, right associativity) : nb_scope.
Open Scope nb_scope.

(** [raise e] *)
Definition raise {W A} (e : PyExc) : M W A := fun s => (Raised e, s).

(** The loop is still running when the fuel is gone. *)
Definition out_of_fuel {W A} : M W A := fun s => (Running, s).

(** [print(line)] *)
Definition print {W} (line : string) : M W unit :=
  fun s => (Returned tt, mkRun (world s) (trace s) (stdout s ++ [line])).

(** A platform call: the world moves on, the call is recorded. *)
Definition invoke {W A} (c : Call) (op : W -> Reply A * W) : M W A :=
  fun s =>
    match op (world s) with
    | (Ret a, w') => (Returned a, mkRun w' (trace s ++ [returned c]) (stdout s))
    | (Exc e, w') => (Raised e, mkRun w' (trace s ++ [raised c e]) (stdout s))
    end.

(** [try: body  except Exception as e: handler e].  Only an exception is
    caught; a body that is still running stays so. *)
Definition try_except {W A} (body : M W A) (handler : PyExc -> M W A) : M W A :=
  fun s =>
    match body s with
    | (Raised e, s') => handler e s'
    | r => r
    end.

(** ** The notebook *)

(** The [config] dictionary the notebook reads; it is defined outside the
    notebook.  [config[key]] raises [KeyError(key)] on a missing key, whose
    [str] is the key in single quotes. *)
Definition Config : Type := string -> option string.

Definition KeyError (key : string) : PyExc := mkExc "KeyError" ("'" ++ key ++ "'").

Definition AttributeError (attr : string) : PyExc :=
  mkExc "AttributeError" ("'NoneType' object has no attribute '" ++ attr ++ "'").

(** The globals bound by the configuration cell. *)
Record Settings : Type := mkSettings {
  CATALOG : string;
  SCHEMA : string;
  VS_INDX : string;
  VECTOR_SEARCH_ENDPOINT_NAME : string;
  embedding_model_endpoint_name : string;
  vs_index_fullname : string
}.

(** The literal dataset of the notebook. *)
Definition faq_data : list (Z * string) :=
  [ (1, "Q: How is my bill calculated? A: Your bill includes your monthly plan fee, additional charges for extra services, taxes, and any applicable discounts. A detailed breakdown is available in your MyTelco account.");
    (2, "Q: Why is my bill higher than usual? A: Your bill may be higher due to extra data usage, international calls, roaming charges, or a recent plan change. Check the usage details in the MyTelco app.");
    (3, "Q: What happens if I don’t pay my bill on time? A: Late payments may incur a penalty and could lead to service suspension. Reconnection fees may apply. Set up autopay to avoid these issues.");
    (4, "Q: How can I set up autopay for my bill? A: Enable autopay by logging into your MyTelco account, navigating to the billing section, and selecting 'Set Up Autopay'.");
    (5, "Q: How do I dispute a charge on my bill? A: If you believe there's an incorrect charge, contact customer support within 30 days of receiving your bill. Provide supporting details for review.");
    (6, "Q: Can I get a refund for overcharges? A: Refunds for overcharges may be available depending on the case. Contact customer support for a review, and any approved refunds will be credited to your next bill.");
    (7, "Q: Why was I charged a late payment fee? A: Late fees apply when payments are made after the due date. Check your bill for the due date and ensure timely payments to avoid these charges.");
    (8, "Q: How do I check my data usage? A: You can check your real-time data usage in the MyTelco app or by logging into your account online.");
    (9, "Q: Why do I see a roaming charge on my bill? A: Roaming charges apply when using your phone outside your network’s coverage. Check your plan settings or enable roaming notifications to avoid unexpected charges.");
    (10, "Q: Can I change my bill due date? A: Yes, you can request a bill due date change by contacting customer support or modifying it in your account settings.") ].

(** [pd.DataFrame(faq_data, columns=["index", "faq"])], then the Spark frame
    made from it: the same columns and rows. *)
Definition spark_df : DataFrame := mkDF ["index"; "faq"] faq_data.

(** [f"{CATALOG}.{SCHEMA}.billing_faq_dataset"]: the table the dataset
    cell writes, and [source_table] of the index cell. *)
Definition source_table (st : Settings) : string :=
  CATALOG st ++ "." ++ SCHEMA st ++ ".billing_faq_dataset".

(** The table as the two SQL statements name it, each part in backticks. *)
Definition table_quoted (st : Settings) : string :=
  "`" ++ CATALOG st ++ "`.`" ++ SCHEMA st ++ "`.`billing_faq_dataset`".

Definition select_query (st : Settings) : string :=
  nl ++ "SELECT * FROM " ++ table_quoted st ++ nl.

Definition alter_query (st : Settings) : string :=
  nl ++ "ALTER TABLE " ++ table_quoted st ++ " " ++ nl
     ++ "SET TBLPROPERTIES (delta.enableChangeDataFeed = true)" ++ nl.

(** The substrings the two exception handlers look for. *)
Definition endpoint_marker : string := json_member "error_code" "ALREADY_EXISTS".
Definition index_marker : string := json_member "error_code" "RESOURCE_ALREADY_EXISTS".
Definition conflict_marker : string := "status_code 409".

(** The tests of the two handlers, on [msg = str(e)]. *)
Definition endpoint_handler_absorbs (msg : string) : bool :=
  str_in endpoint_marker msg || str_in conflict_marker msg.

Definition index_handler_absorbs (msg : string) : bool :=
  str_in index_marker msg || str_in conflict_marker msg.

Definition primary_key : string := "index".
Definition embedding_source_column : string := "faq".

(** The arguments the index cell passes; [vs_index] is [vs_index_fullname]. *)
Definition index_args (st : Settings) : IndexArgs.t :=
  IndexArgs.mk (VECTOR_SEARCH_ENDPOINT_NAME st) (vs_index_fullname st)
    (source_table st) "TRIGGERED" primary_key embedding_source_column
    (embedding_model_endpoint_name st).

Definition query_text : string := "Can I change my bill due date".

Definition ann_args : SearchArgs.t := SearchArgs.mk query_text ["index"; "faq"] "ANN" 5.
Definition hybrid_args : SearchArgs.t := SearchArgs.mk query_text ["index"; "faq"] "hybrid" 5.

(** The lines the notebook prints. *)
Definition waiting_line : string := "Waiting for index to be ONLINE...".

Definition endpoint_exists_line (st : Settings) : string :=
  "Endpoint " ++ VECTOR_SEARCH_ENDPOINT_NAME st ++ " already exists. Continuing...".

Definition creating_line (st : Settings) : string :=
  "Creating index " ++ vs_index_fullname st ++ " on endpoint "
    ++ VECTOR_SEARCH_ENDPOINT_NAME st ++ "...".

Definition index_ready_line (st : Settings) : string :=
  "index " ++ vs_index_fullname st ++ " on table " ++ source_table st ++ " is ready".

Definition index_exists_line (st : Settings) : string :=
  "Index " ++ vs_index_fullname st ++ " already exists. Continuing...".

Section Notebook.

Variable P : Platform.
Variable config : Config.

Local Abbreviation NB := (M (World P)).

(** [config[key]] *)
Definition config_get (key : string) : NB string :=
  match config key with
  | Some v => ret v
  | None => raise (KeyError key)
  end.

(** Cell "Update Databricks SDK and Vector Search Library". *)
Definition cell_update_libraries : NB unit :=
  invoke (CPipInstall "-U --quiet databricks-sdk==0.28.0 databricks-vectorsearch")
         (pip_install P "-U --quiet databricks-sdk==0.28.0 databricks-vectorsearch");;
  invoke CRestartPython (restartPython P).

(** Cell "Setup Vector Search Index Configuration". *)
Definition cell_setup_config : NB Settings :=
  catalog <- config_get "catalog";;
  schema <- config_get "database";;
  vs_indx <- config_get "vector_search_index";;
  endpoint <- config_get "VECTOR_SEARCH_ENDPOINT_NAME";;
  model <- config_get "embedding_model_endpoint_name";;
  ret (mkSettings catalog schema vs_indx endpoint model
         (catalog ++ "." ++ schema ++ "." ++ vs_indx)).

(** Cell "Create Billing FAQ Dataset and Save as Delta Table". *)
Definition cell_create_dataset (st : Settings) : NB unit :=
  invoke (CSaveAsTable "delta" "overwrite" (source_table st) spark_df)
         (saveAsTable P "delta" "overwrite" (source_table st) spark_df).

(** Cell "SELECT All Columns from Billing FAQ Dataset". *)
Definition cell_select_all (st : Settings) : NB unit :=
  df <- invoke (CSparkSql (select_query st)) (spark_sql P (select_query st));;
  invoke (CDisplay df) (display P df).

(** The body of the [try] statement of the endpoint cell. *)
Definition create_endpoint (st : Settings) : NB unit :=
  invoke (CCreateEndpointAndWait (VECTOR_SEARCH_ENDPOINT_NAME st) "STANDARD")
         (create_endpoint_and_wait P (VECTOR_SEARCH_ENDPOINT_NAME st) "STANDARD").

(** Its [except Exception as e] clause. *)
Definition endpoint_handler (st : Settings) (e : PyExc) : NB unit :=
  let msg := exc_str e in
  if endpoint_handler_absorbs msg
  then print (endpoint_exists_line st)
  else raise e.

Definition try_create_endpoint (st : Settings) : NB unit :=
  try_except (create_endpoint st) (endpoint_handler st).

(** Cell "Create Vector Search Endpoint with Databricks Client". *)
Definition cell_create_endpoint (st : Settings) : NB unit :=
  invoke (CVectorSearchClient false) (VectorSearchClient P false);;
  try_create_endpoint st.

(** Cell "Initialize Vector Search Client". *)
Definition cell_init_client : NB unit :=
  invoke (CVectorSearchClient true) (VectorSearchClient P true).

(** [d.get('status').get('detailed_state').startswith('ONLINE')]: calling
    [.get] or [.startswith] on [None] raises [AttributeError]. *)
Definition is_online (d : DescribeDict) : NB bool :=
  match status d with
  | None => raise (AttributeError "get")
  | Some st =>
      match detailed_state st with
      | None => raise (AttributeError "startswith")
      | Some ds => ret (startswith ds "ONLINE")
      end
  end.

(** [time.sleep(seconds)] *)
Definition time_sleep (seconds : Z) : NB unit :=
  invoke (CSleep seconds) (fun w => (Ret tt, sleep P seconds w)).

(** [while not index.describe()...startswith('ONLINE'): print(...); time.sleep(5)]:
    one unit of fuel per evaluation of the loop condition. *)
Fixpoint wait_until_online (fuel : nat) (index : IndexHandle) : NB unit :=
  match fuel with
  | O => out_of_fuel
  | S fuel' =>
      d <- invoke (CDescribe index) (describe P index);;
      online <- is_online d;;
      if online then ret tt
      else (print waiting_line;;
            time_sleep 5;;
            wait_until_online fuel' index)
  end.

(** The body of the [try] statement of the index cell: create, then poll,
    inside the same [try]. *)
Definition create_index_and_wait (fuel : nat) (st : Settings) : NB unit :=
  index <- invoke (CCreateDeltaSyncIndex (index_args st))
                  (create_delta_sync_index P (index_args st));;
  wait_until_online fuel index;;
  print (index_ready_line st).

(** Its [except Exception as e] clause. *)
Definition index_handler (st : Settings) (e : PyExc) : NB unit :=
  let msg := exc_str e in
  if index_handler_absorbs msg
  then print (index_exists_line st)
  else raise e.

Definition try_create_index (fuel : nat) (st : Settings) : NB unit :=
  try_except (create_index_and_wait fuel st) (index_handler st).

(** Cell "Create and Sync Vector Search Index for FAQ Dataset". *)
Definition cell_create_index (fuel : nat) (st : Settings) : NB unit :=
  invoke (CSparkSql (alter_query st)) (spark_sql P (alter_query st));;
  print (creating_line st);;
  try_create_index fuel st.

(** [vsc.get_index(ENDPOINT, vs_index_fullname).similarity_search(...)] *)
Definition query (st : Settings) (args : SearchArgs.t) : NB SearchResults :=
  index <- invoke (CGetIndex (VECTOR_SEARCH_ENDPOINT_NAME st) (vs_index_fullname st))
                  (get_index P (VECTOR_SEARCH_ENDPOINT_NAME st) (vs_index_fullname st));;
  invoke (CSimilaritySearch index args) (similarity_search P index args).

(** Cell "Demonstration of Similarity Search Using Vector Search Index". *)
Definition cell_ann_search (st : Settings) : NB SearchResults := query st ann_args.

(** The last cell: the same query in hybrid mode. *)
Definition cell_hybrid_search (st : Settings) : NB SearchResults := query st hybrid_args.

(** The cells from the top down to the one that creates the index. *)
Definition prelude : NB Settings :=
  cell_update_libraries;;
  st <- cell_setup_config;;
  cell_create_dataset st;;
  cell_select_all st;;
  cell_create_endpoint st;;
  cell_init_client;;
  ret st.

(** A run of the whole notebook; its value is the pair of result sets. *)
Definition notebook (fuel : nat) : NB (SearchResults * SearchResults) :=
  st <- prelude;;
  cell_create_index fuel st;;
  ann <- cell_ann_search st;;
  hybrid <- cell_hybrid_search st;;
  ret (ann, hybrid).

End Notebook.

(** A run starts with an empty trace and nothing printed. *)
Definition start {W} (w : W) : Run W := mkRun w [] [].

(** ** A simulated platform

    To run the notebook on concrete inputs we need some platform.  This one
    keeps a registry of tables, endpoints and indexes.  An index goes
    PROVISIONING, SYNCING, ONLINE, one step per sleep of five seconds or
    more, or FAILED when the embedding endpoint is down; creating an endpoint
    or an index whose name is taken raises the 409 response of the service,
    and so does any creation while the registry is busy.  A query is answered
    with the first rows of the source table: no ranking is simulated.  The
    theorems below hold for every platform; this one only instantiates
    them. *)

Module Sim.

Inductive IndexState : Type := PROVISIONING | SYNCING | ONLINE | FAILED.

Definition state_name (st : IndexState) : string :=
  match st with
  | PROVISIONING => "PROVISIONING"
  | SYNCING => "SYNCING"
  | ONLINE => "ONLINE"
  | FAILED => "FAILED"
  end.

Record SimIndex : Type := mkSimIndex {
  si_name : string;
  si_endpoint : string;
  si_source : string;
  si_state : IndexState
}.

Record SimWorld : Type := mkSimWorld {
  tables : list (string * DataFrame);
  statements : list string;
  endpoints : list string;
  indexes : list SimIndex;
  clock : Z;
  embedding_up : bool;
  busy : bool
}.

Definition empty_world : SimWorld := mkSimWorld [] [] [] [] 0 true false.

(** The exception the vector-search client raises on an HTTP error. *)
Definition response (code message : string) (http : string) : PyExc :=
  mkExc "Exception"
    ("Response content b'{" ++ json_member "error_code" code ++ ","
       ++ json_member "message" message ++ "}', status_code " ++ http).

Definition already_exists_endpoint : PyExc :=
  response "ALREADY_EXISTS" "Endpoint already exists" "409".

Definition already_exists_index : PyExc :=
  response "RESOURCE_ALREADY_EXISTS" "Index already exists" "409".

Definition invalid_name : PyExc :=
  response "INVALID_PARAMETER_VALUE" "Endpoint name must not be empty" "400".

Definition no_source_table : PyExc :=
  response "RESOURCE_DOES_NOT_EXIST" "Source table not found" "404".

Definition not_ready : PyExc := response "BAD_REQUEST" "Index is not ready" "400".

Definition bad_num_results : PyExc :=
  response "INVALID_PARAMETER_VALUE" "num_results must be positive" "400".

(** A transient conflict: the registry is being modified, retry later. *)
Definition conflict : PyExc :=
  response "RESOURCE_CONFLICT" "Concurrent modification, retry later" "409".

Fixpoint find_index (name : string) (l : list SimIndex) : option SimIndex :=
  match l with
  | [] => None
  | i :: l' => if String.eqb (si_name i) name then Some i else find_index name l'
  end.

Fixpoint find_table (name : string) (l : list (string * DataFrame)) : option DataFrame :=
  match l with
  | [] => None
  | (n, df) :: l' => if String.eqb n name then Some df else find_table name l'
  end.

Definition mem (x : string) (l : list string) : bool := existsb (String.eqb x) l.

Definition sim_save (fmt mode table : string) (df : DataFrame) (w : SimWorld)
  : Reply unit * SimWorld :=
  (Ret tt,
   mkSimWorld ((table, df) :: filter (fun t => negb (String.eqb (fst t) table)) (tables w))
     (statements w) (endpoints w) (indexes w) (clock w) (embedding_up w) (busy w)).

Definition sim_sql (q : string) (w : SimWorld) : Reply DataFrame * SimWorld :=
  (Ret (mkDF [] []),
   mkSimWorld (tables w) (statements w ++ [q]) (endpoints w) (indexes w) (clock w)
     (embedding_up w) (busy w)).

Definition sim_create_endpoint (name kind : string) (w : SimWorld)
  : Reply unit * SimWorld :=
  if busy w then (Exc conflict, w)
  else if String.eqb name "" then (Exc invalid_name, w)
  else if mem name (endpoints w) then (Exc already_exists_endpoint, w)
  else (Ret tt,
        mkSimWorld (tables w) (statements w) (name :: endpoints w) (indexes w) (clock w)
          (embedding_up w) (busy w)).

Definition sim_create_index (a : IndexArgs.t) (w : SimWorld)
  : Reply IndexHandle * SimWorld :=
  if busy w then (Exc conflict, w) else
  match find_index (IndexArgs.index_name a) (indexes w), find_table (IndexArgs.source_table_name a) (tables w) with
  | Some _, _ => (Exc already_exists_index, w)
  | None, None => (Exc no_source_table, w)
  | None, Some _ =>
      (Ret (mkHandle (IndexArgs.endpoint_name a) (IndexArgs.index_name a)),
       mkSimWorld (tables w) (statements w) (endpoints w)
         (mkSimIndex (IndexArgs.index_name a) (IndexArgs.endpoint_name a) (IndexArgs.source_table_name a) PROVISIONING
            :: indexes w)
         (clock w) (embedding_up w) (busy w))
  end.

Definition not_found : PyExc := response "RESOURCE_DOES_NOT_EXIST" "Index not found" "404".

Definition sim_describe (h : IndexHandle) (w : SimWorld) : Reply DescribeDict * SimWorld :=
  match find_index (h_name h) (indexes w) with
  | Some i => (Ret (mkDescribe (Some (mkStatus (Some (state_name (si_state i)))))), w)
  | None => (Exc not_found, w)
  end.

Definition advance (up : bool) (i : SimIndex) : SimIndex :=
  mkSimIndex (si_name i) (si_endpoint i) (si_source i)
    (match si_state i with
     | PROVISIONING => if up then SYNCING else FAILED
     | SYNCING => if up then ONLINE else FAILED
     | ONLINE => ONLINE
     | FAILED => FAILED
     end).

Definition sim_sleep (seconds : Z) (w : SimWorld) : SimWorld :=
  mkSimWorld (tables w) (statements w) (endpoints w)
    (if 5 <=? seconds then map (advance (embedding_up w)) (indexes w) else indexes w)
    (clock w + seconds) (embedding_up w) (busy w).

Definition sim_get_index (endpoint name : string) (w : SimWorld)
  : Reply IndexHandle * SimWorld :=
  match find_index name (indexes w) with
  | Some i => (Ret (mkHandle endpoint name), w)
  | None => (Exc not_found, w)
  end.

Definition sim_search (h : IndexHandle) (a : SearchArgs.t) (w : SimWorld)
  : Reply SearchResults * SimWorld :=
  match find_index (h_name h) (indexes w) with
  | None => (Exc not_found, w)
  | Some i =>
      if SearchArgs.num_results a <=? 0 then (Exc bad_num_results, w) else
      match si_state i with
      | ONLINE =>
          match find_table (si_source i) (tables w) with
          | Some df => (Ret (firstn (Z.to_nat (SearchArgs.num_results a)) (df_rows df)), w)
          | None => (Ret [], w)
          end
      | _ => (Exc not_ready, w)
      end
  end.

Definition platform : Platform :=
  mkPlatform SimWorld
    (fun _ w => (Ret tt, w))
    (fun w => (Ret tt, w))
    sim_save sim_sql
    (fun _ w => (Ret tt, w))
    (fun _ w => (Ret tt, w))
    sim_create_endpoint sim_create_index sim_describe sim_sleep sim_get_index sim_search.

(** The same platform, except that [describe()] answers a dictionary with
    no 'status' key. *)
Definition platform_without_status : Platform :=
  mkPlatform SimWorld
    (fun _ w => (Ret tt, w))
    (fun w => (Ret tt, w))
    sim_save sim_sql
    (fun _ w => (Ret tt, w))
    (fun _ w => (Ret tt, w))
    sim_create_endpoint sim_create_index (fun _ w => (Ret (mkDescribe None), w))
    sim_sleep sim_get_index sim_search.

(** An already-exists error in other words: the message names the index
    and carries neither the JSON error code nor the HTTP status. *)
Definition index_exists_plain : PyExc :=
  mkExc "Exception" "Index main.telco.faq_index already exists".

(** The same platform, except that creating an index whose name is taken
    is refused in those words. *)
Definition sim_create_index_plain (a : IndexArgs.t) (w : SimWorld)
  : Reply IndexHandle * SimWorld :=
  match find_index (IndexArgs.index_name a) (indexes w) with
  | Some _ => (Exc index_exists_plain, w)
  | None => sim_create_index a w
  end.

Definition platform_plain_wording : Platform :=
  mkPlatform SimWorld
    (fun _ w => (Ret tt, w))
    (fun w => (Ret tt, w))
    sim_save sim_sql
    (fun _ w => (Ret tt, w))
    (fun _ w => (Ret tt, w))
    sim_create_endpoint sim_create_index_plain sim_describe
    sim_sleep sim_get_index sim_search.

(** The same platform, except that [describe()] is refused with the 409
    response of a busy registry. *)
Definition platform_busy_describe : Platform :=
  mkPlatform SimWorld
    (fun _ w => (Ret tt, w))
    (fun w => (Ret tt, w))
    sim_save sim_sql
    (fun _ w => (Ret tt, w))
    (fun _ w => (Ret tt, w))
    sim_create_endpoint sim_create_index (fun _ w => (Exc conflict, w))
    sim_sleep sim_get_index sim_search.

Definition config : Config := fun key =>
  if String.eqb key "catalog" then Some "main"
  else if String.eqb key "database" then Some "telco"
  else if String.eqb key "vector_search_index" then Some "faq_index"
  else if String.eqb key "VECTOR_SEARCH_ENDPOINT_NAME" then Some "vs_endpoint"
  else if String.eqb key "embedding_model_endpoint_name" then Some "databricks-gte-large-en"
  else None.

Definition settings : Settings :=
  mkSettings "main" "telco" "faq_index" "vs_endpoint" "databricks-gte-large-en"
    "main.telco.faq_index".

(** A configuration that names no endpoint. *)
Definition config_without_endpoint : Config := fun key =>
  if String.eqb key "VECTOR_SEARCH_ENDPOINT_NAME" then None else config key.

End Sim.

(** ** Readiness polling, seen from the platform *)

(** What a poll reads when [describe()] reports the state [ds]. *)
Definition reports (ds : string) : DescribeDict := mkDescribe (Some (mkStatus (Some ds))).

(** [polls P h n w w']: starting in world [w], [n] polls in a row find a
    state that does not start with ONLINE, each followed by a sleep of five
    seconds, and the poll after them finds one that does and leaves the
    world [w']. *)
Inductive polls (P : Platform) (h : IndexHandle) : nat -> World P -> World P -> Prop :=
| polls_online : forall w w' ds,
    describe P h w = (Ret (reports ds), w') ->
    startswith ds "ONLINE" = true ->
    polls P h 0 w w'
| polls_wait : forall n w w1 w' ds,
    describe P h w = (Ret (reports ds), w1) ->
    startswith ds "ONLINE" = false ->
    polls P h n (sleep P 5 w1) w' ->
    polls P h (S n) w w'.

(** The calls of such a wait: a poll and a five-second sleep, [n] times,
    then the last poll. *)
Fixpoint poll_trace (h : IndexHandle) (n : nat) : list Event :=
  match n with
  | O => [returned (CDescribe h)]
  | S n' => returned (CDescribe h) :: returned (CSleep 5) :: poll_trace h n'
  end.

(** The polling loop comes to an end from [s]: some number of polls is
    enough for it to return or to raise. *)
Definition polling_ends (P : Platform) (h : IndexHandle) (s : Run (World P)) : Prop :=
  exists fuel : nat, fst (wait_until_online P fuel h s) <> Running.

(** ** The kinds of creation error

    The taxonomy of the specification, read off a response the way the
    service writes it: an error is AlreadyExists when its body carries the
    already-exists error code of the resource being created ([marker]), a
    ResourceConflict when it is another 409 response, and something else
    otherwise. *)
Inductive ErrorKind : Type := AlreadyExists | ResourceConflict | OtherError.

Definition error_kind (marker msg : string) : ErrorKind :=
  if str_in marker msg then AlreadyExists
  else if str_in conflict_marker msg then ResourceConflict
  else OtherError.

Definition endpoint_error_kind (e : PyExc) : ErrorKind :=
  error_kind endpoint_marker (exc_str e).

Definition index_error_kind (e : PyExc) : ErrorKind :=
  error_kind index_marker (exc_str e).

(** ** Worlds of the simulated platform used below *)

Module SimWorlds.
Import Sim.

Definition handle : IndexHandle := mkHandle "vs_endpoint" "main.telco.faq_index".

Definition an_index (st : IndexState) : SimIndex :=
  mkSimIndex "main.telco.faq_index" "vs_endpoint" "main.telco.billing_faq_dataset" st.

(** The index exists and is in state [st]; the clock reads [c]. *)
Definition with_index (st : IndexState) (up : bool) (c : Z) : SimWorld :=
  mkSimWorld [("main.telco.billing_faq_dataset", spark_df)] [] ["vs_endpoint"]
    [an_index st] c up false.

(** The source table is written; there is no endpoint and no index. *)
Definition with_table : SimWorld :=
  mkSimWorld [("main.telco.billing_faq_dataset", spark_df)] [] [] [] 0 true false.

(** The world after the index cell created the index over that table. *)
Definition created (st : IndexState) : SimWorld :=
  mkSimWorld [("main.telco.billing_faq_dataset", spark_df)] [] [] [an_index st] 0 true false.

(** The worlds of a first run: the table is written; [stmts] are the SQL
    statements run so far, [eps] the endpoints, [idx] the indexes, and the
    clock reads [c]. *)
Definition first_run (stmts eps : list string) (idx : list SimIndex) (c : Z) : SimWorld :=
  mkSimWorld [("main.telco.billing_faq_dataset", spark_df)] stmts eps idx c true false.

(** The worlds of a second run: those statements follow the two of the
    first run. *)
Definition rerun (stmts : list string) : SimWorld :=
  first_run ([select_query settings; alter_query settings] ++ stmts)
    ["vs_endpoint"] [an_index ONLINE] 10.

(** Settings whose endpoint name is empty. *)
Definition unnamed_endpoint : Settings :=
  mkSettings "main" "telco" "faq_index" "" "databricks-gte-large-en" "main.telco.faq_index".

(** The same world after the ALTER TABLE statement of the index cell. *)
Definition altered (st : IndexState) : SimWorld :=
  mkSimWorld [("main.telco.billing_faq_dataset", spark_df)] [alter_query settings]
    ["vs_endpoint"] [an_index st] 0 true false.

(** Nothing exists yet, and the registry is busy. *)
Definition busy_world : SimWorld := mkSimWorld [] [] [] [] 0 true true.

(** The world a first complete run of the notebook leaves behind. *)
Definition after_first_run : SimWorld :=
  world (snd (notebook platform config 3 (start empty_world))).

End SimWorlds.

(** ** Reading traces *)

(** The exception a reply stands for in the trace. *)
Definition reply_exc {A} (r : Reply A) : option PyExc :=
  match r with
  | Ret _ => None
  | Exc e => Some e
  end.

Definition is_create_index (ev : Event) : bool :=
  match fst ev with
  | CCreateDeltaSyncIndex _ => true
  | _ => false
  end.

Definition is_describe (ev : Event) : bool :=
  match fst ev with
  | CDescribe _ => true
  | _ => false
  end.

Definition not_create (ev : Event) : bool := negb (is_create_index ev).

(** What a piece of the notebook adds to the trace: the trace only grows,
    and every event added satisfies [Q]. *)
Definition only_emits {W A} (Q : Event -> bool) (m : M W A) : Prop :=
  forall s o s',
    m s = (o, s') ->
    exists added, trace s' = (trace s ++ added)%list /\ forallb Q added = true.

(** The events of a run that came after those of [s]. *)
Definition added_since {W} (s s' : Run W) : list Event :=
  skipn (length (trace s)) (trace s').

(** The write of the literal dataset, as the trace records it. *)
Definition save_event (table : string) : Event :=
  returned (CSaveAsTable "delta" "overwrite" table (mkDF ["index"; "faq"] faq_data)).

(** ** Further notions used to state what the notebook does *)

(** The keys the configuration cell reads, in the order it reads them. *)
Definition config_keys : list string :=
  [ "catalog"; "database"; "vector_search_index";
    "VECTOR_SEARCH_ENDPOINT_NAME"; "embedding_model_endpoint_name" ].

(** The first of them that [config] does not have. *)
Definition first_missing (config : Config) : option string :=
  find (fun key => match config key with None => true | Some _ => false end) config_keys.

(** The arguments of [%pip install]. *)
Definition pip_args : string := "-U --quiet databricks-sdk==0.28.0 databricks-vectorsearch".

(** [waits P h n w w']: starting in world [w], [n] polls in a row find a
    state that does not start with ONLINE, each followed by a sleep of five
    seconds; [w'] is the world after the last of these sleeps. *)
Inductive waits (P : Platform) (h : IndexHandle) : nat -> World P -> World P -> Prop :=
| waits_none : forall w, waits P h 0 w w
| waits_more : forall n w w1 w' ds,
    describe P h w = (Ret (reports ds), w1) ->
    startswith ds "ONLINE" = false ->
    waits P h n (sleep P 5 w1) w' ->
    waits P h (S n) w w'.

(** The calls of [n] such turns: a poll and a five-second sleep, [n] times. *)
Fixpoint waits_trace (h : IndexHandle) (n : nat) : list Event :=
  match n with
  | O => []
  | S n' => returned (CDescribe h) :: returned (CSleep 5) :: waits_trace h n'
  end.

(** The exception of reading the state out of a [describe()] answer that
    lacks it, [None] when the answer has one. *)
Definition missing_state (d : DescribeDict) : option PyExc :=
  match status d with
  | None => Some (AttributeError "get")
  | Some sd =>
      match detailed_state sd with
      | None => Some (AttributeError "startswith")
      | Some _ => None
      end
  end.

(** An event after which the notebook goes on: the call returned, or it is
    one of the calls inside a [try] statement and raised an exception that
    the handler of that statement absorbs. *)
Definition passes (ev : Event) : bool :=
  match ev with
  | (_, None) => true
  | (CCreateEndpointAndWait _ _, Some e) => endpoint_handler_absorbs (exc_str e)
  | (CCreateDeltaSyncIndex _, Some e) => index_handler_absorbs (exc_str e)
  | (CDescribe _, Some e) => index_handler_absorbs (exc_str e)
  | (_, Some _) => false
  end.

(** The calls made inside the [try] statement of the index cell that can
    raise. *)
Definition in_index_try (c : Call) : bool :=
  match c with
  | CCreateDeltaSyncIndex _ | CDescribe _ => true
  | _ => false
  end.

Definition any_call (c : Call) : bool := true.

(** [stops_at K m]: whatever [m] adds to the trace is a run of events that
    pass, followed by at most one more event; that last event is a call of
    kind [K] which raised, and what it raised is what [m] raises. *)
Definition stops_at {W A} (K : Call -> bool) (m : M W A) : Prop :=
  forall s o s',
    m s = (o, s') ->
    exists before last,
      trace s' = (trace s ++ before ++ last)%list /\
      forallb passes before = true /\
      (last = [] \/ exists c e, last = [(c, Some e)] /\ K c = true /\ o = Raised e).

(** The events of the two query cells. *)
Definition is_query_event (ev : Event) : bool :=
  match fst ev with
  | CGetIndex _ _ | CSimilaritySearch _ _ => true
  | _ => false
  end.

Definition not_query (ev : Event) : bool := negb (is_query_event ev).

(** The two query cells, one after the other. *)
Definition queries (P : Platform) (st : Settings)
  : M (World P) (SearchResults * SearchResults) :=
  ann <- cell_ann_search P st;;
  hybrid <- cell_hybrid_search P st;;
  ret (ann, hybrid).

(** The notebook down to the end of the index cell. *)
Definition up_to_index_cell (P : Platform) (config : Config) (fuel : nat)
  : M (World P) Settings :=
  st <- prelude P config;;
  cell_create_index P fuel st;;
  ret st.

(** What the two query cells add to the trace when they start in the
    world [w] and look the index up as [name] on [ep], read off the replies
    of the platform: each search is made on the handle that the lookup
    right before it returned, in the world that lookup left; a lookup or a
    search that raises is the last event. *)
Definition queries_replies (P : Platform) (ep name : string) (w : World P)
    (post : list Event) : Prop :=
  match get_index P ep name w with
  | (Exc e, _) => post = [raised (CGetIndex ep name) e]
  | (Ret h1, w1) =>
      match similarity_search P h1 ann_args w1 with
      | (Exc e, _) =>
          post = [returned (CGetIndex ep name); raised (CSimilaritySearch h1 ann_args) e]
      | (Ret _, w2) =>
          match get_index P ep name w2 with
          | (Exc e, _) =>
              post = [returned (CGetIndex ep name);
                      returned (CSimilaritySearch h1 ann_args);
                      raised (CGetIndex ep name) e]
          | (Ret h2, w3) =>
              post = [returned (CGetIndex ep name);
                      returned (CSimilaritySearch h1 ann_args);
                      returned (CGetIndex ep name);
                      (CSimilaritySearch h2 hybrid_args,
                       reply_exc (fst (similarity_search P h2 hybrid_args w3)))]
          end
      end
  end.

(** * Properties *)

(** ** The substring test is the one of Python *)

Lemma prefix_app : forall p s : string,
  String.prefix p s = true <-> exists r, s = p ++ r.
Proof.
  induction p as [|a p IH]; intros s.
  - split; [intros _; now exists s | intros _; now destruct s].
  - destruct s as [|b s]; simpl.
    + split; [discriminate | intros [r Hr]; discriminate].
    + destruct (ascii_dec a b) as [->|Hab].
      * rewrite IH. split; intros [r Hr]; exists r; [now rewrite Hr | now inversion Hr].
      * split; [discriminate | intros [r Hr]; simpl in Hr; congruence].
Qed.

Lemma str_in_spec : forall sub s : string,
  str_in sub s = true <-> exists l r, s = l ++ sub ++ r.
Proof.
  intros sub s; induction s as [|c s IH]; cbn [str_in].
  - rewrite prefix_app. split.
    + intros [r Hr]. now exists "", r.
    + intros [l [r Hr]]. destruct l; [now exists r | discriminate].
  - rewrite orb_true_iff, IH, prefix_app. split.
    + intros [[r Hr] | [l [r Hr]]].
      * now exists "", r.
      * exists (String c l), r. simpl. now rewrite Hr.
    + intros [l [r Hr]]. destruct l as [|c' l].
      * left. now exists r.
      * right. exists l, r. now inversion Hr.
Qed.

(** The already-exists code of an endpoint is not found inside the one of
    an index, nor the other way round: each handler sees only its own. *)
Lemma markers_apart :
  str_in endpoint_marker index_marker = false /\
  str_in index_marker endpoint_marker = false.
Proof. split; reflexivity. Qed.

(** ** Running the two [try] statements *)

Section Handlers.

Variable P : Platform.
Variable st : Settings.

Lemma try_except_raised : forall {A} (body : M (World P) A) handler s e s',
  body s = (Raised e, s') -> try_except body handler s = handler e s'.
Proof. intros A body handler s e s' H. unfold try_except. now rewrite H. Qed.

Lemma bind_returned : forall {A B} (m : M (World P) A) (k : A -> M (World P) B) s a s',
  m s = (Returned a, s') -> bind m k s = k a s'.
Proof. intros A B m k s a s' H. unfold bind. now rewrite H. Qed.

Lemma create_endpoint_raised : forall s e w',
  create_endpoint_and_wait P (VECTOR_SEARCH_ENDPOINT_NAME st) "STANDARD" (world s) = (Exc e, w') ->
  create_endpoint P st s =
    (Raised e,
     mkRun w' (trace s ++ [raised (CCreateEndpointAndWait (VECTOR_SEARCH_ENDPOINT_NAME st)
                                      "STANDARD") e])
       (stdout s)).
Proof. intros s e w' H. unfold create_endpoint, invoke. now rewrite H. Qed.

Lemma create_index_raised : forall fuel s e w',
  create_delta_sync_index P (index_args st) (world s) = (Exc e, w') ->
  create_index_and_wait P fuel st s =
    (Raised e,
     mkRun w' (trace s ++ [raised (CCreateDeltaSyncIndex (index_args st)) e]) (stdout s)).
Proof.
  intros fuel s e w' H. unfold create_index_and_wait, bind, invoke. now rewrite H.
Qed.

Lemma endpoint_handler_run : forall e s,
  endpoint_handler P st e s =
    if endpoint_handler_absorbs (exc_str e)
    then (Returned tt, mkRun (world s) (trace s) (stdout s ++ [endpoint_exists_line st]))
    else (Raised e, s).
Proof.
  intros e s. unfold endpoint_handler.
  now destruct (endpoint_handler_absorbs (exc_str e)).
Qed.

Lemma index_handler_run : forall e s,
  index_handler P st e s =
    if index_handler_absorbs (exc_str e)
    then (Returned tt, mkRun (world s) (trace s) (stdout s ++ [index_exists_line st]))
    else (Raised e, s).
Proof.
  intros e s. unfold index_handler.
  now destruct (index_handler_absorbs (exc_str e)).
Qed.

End Handlers.

(** A message is absorbed by a handler exactly when it is of one of the two
    conflict kinds. *)
Lemma absorbs_iff_kind : forall marker msg,
  str_in marker msg || str_in conflict_marker msg = true <->
  error_kind marker msg = AlreadyExists \/ error_kind marker msg = ResourceConflict.
Proof.
  intros marker msg. unfold error_kind.
  destruct (str_in marker msg); destruct (str_in conflict_marker msg); simpl;
    split; intros H; auto; try discriminate; destruct H; discriminate.
Qed.

Lemma not_absorbs_iff_kind : forall marker msg,
  str_in marker msg || str_in conflict_marker msg = false <->
  error_kind marker msg = OtherError.
Proof.
  intros marker msg. unfold error_kind.
  destruct (str_in marker msg); destruct (str_in conflict_marker msg); simpl;
    split; intros H; auto; discriminate.
Qed.

(** ** Creating an index that exists *)

(** C1, as the specification states it, fails: the index of the first run
    exists, the platform refuses to create it again with an error that says
    so in other words, without the code RESOURCE_ALREADY_EXISTS and without
    "status_code 409", and the [try] statement of the index cell raises that
    error to the caller instead of swallowing it. *)
Lemma already_exists_in_other_words_is_raised :
  Sim.find_index (IndexArgs.index_name (index_args Sim.settings))
    (Sim.indexes SimWorlds.after_first_run) = Some (SimWorlds.an_index Sim.ONLINE)
  /\ create_delta_sync_index Sim.platform_plain_wording (index_args Sim.settings)
       SimWorlds.after_first_run
     = (Exc Sim.index_exists_plain, SimWorlds.after_first_run)
  /\ try_create_index Sim.platform_plain_wording 3 Sim.settings
       (start SimWorlds.after_first_run) =
       (Raised Sim.index_exists_plain,
        mkRun SimWorlds.after_first_run
          [raised (CCreateDeltaSyncIndex (index_args Sim.settings)) Sim.index_exists_plain]
          []).
Proof. vm_compute. repeat split. Qed.

(** C1, amended.  The notebook knows that the index exists only by the
    wording of the error.  When [create_delta_sync_index] raises an error
    whose message carries the code RESOURCE_ALREADY_EXISTS or contains
    "status_code 409", the [try] statement of the index cell returns
    normally, whatever the fuel: the error is swallowed and nothing is raised
    to the caller; the notebook makes no other call, so the trace grows by
    the rejected call alone and the world is the one that call left, and the
    notebook creates no second index; it prints one line.  When the message
    has neither, the same error is raised to the caller, and nothing is
    printed. *)
Theorem create_index_already_exists_is_noop :
  forall (P : Platform) (fuel : nat) (st : Settings) (s : Run (World P))
         (e : PyExc) (w' : World P),
    create_delta_sync_index P (index_args st) (world s) = (Exc e, w') ->
    try_create_index P fuel st s =
      if str_in index_marker (exc_str e) || str_in conflict_marker (exc_str e)
      then (Returned tt,
            mkRun w' (trace s ++ [raised (CCreateDeltaSyncIndex (index_args st)) e])
              (stdout s ++ [index_exists_line st]))
      else (Raised e,
            mkRun w' (trace s ++ [raised (CCreateDeltaSyncIndex (index_args st)) e])
              (stdout s)).
Proof.
  intros P fuel st s e w' Hcreate.
  unfold try_create_index.
  rewrite (try_except_raised P _ _ _ _ _ (create_index_raised P st fuel s e w' Hcreate)).
  rewrite index_handler_run. unfold index_handler_absorbs.
  now destruct (str_in index_marker (exc_str e) || str_in conflict_marker (exc_str e)).
Qed.

(** On the simulated platform: the second run finds the index of the first
    one, the service answers RESOURCE_ALREADY_EXISTS with status 409, and
    the registry still holds that one index. *)
Lemma create_index_already_exists_witness :
  try_create_index Sim.platform 3 Sim.settings (start SimWorlds.after_first_run) =
    (Returned tt,
     mkRun SimWorlds.after_first_run
       [raised (CCreateDeltaSyncIndex (index_args Sim.settings)) Sim.already_exists_index]
       [index_exists_line Sim.settings])
  /\ Sim.indexes SimWorlds.after_first_run = [SimWorlds.an_index Sim.ONLINE].
Proof.
  split.
  - etransitivity.
    + apply (create_index_already_exists_is_noop Sim.platform 3 Sim.settings
               (start SimWorlds.after_first_run) Sim.already_exists_index
               SimWorlds.after_first_run).
      vm_compute; reflexivity.
    + vm_compute; reflexivity.
  - vm_compute; reflexivity.
Defined.

(** X1.  The same holds for the endpoint cell and its own code: when
    [create_endpoint_and_wait] raises an error whose message carries the
    code ALREADY_EXISTS, the [try] statement of the endpoint cell returns
    normally; the rejected call is the only call made, the world is the one
    it left, and one line is printed. *)
Lemma create_endpoint_already_exists_is_noop :
  forall (P : Platform) (st : Settings) (s : Run (World P)) (e : PyExc) (w' : World P),
    create_endpoint_and_wait P (VECTOR_SEARCH_ENDPOINT_NAME st) "STANDARD" (world s)
      = (Exc e, w') ->
    str_in endpoint_marker (exc_str e) = true ->
    try_create_endpoint P st s =
      (Returned tt,
       mkRun w'
         (trace s ++ [raised (CCreateEndpointAndWait (VECTOR_SEARCH_ENDPOINT_NAME st)
                                "STANDARD") e])
         (stdout s ++ [endpoint_exists_line st])).
Proof.
  intros P st s e w' Hcreate Hmarker.
  unfold try_create_endpoint.
  rewrite (try_except_raised P _ _ _ _ _ (create_endpoint_raised P st s e w' Hcreate)).
  rewrite endpoint_handler_run. unfold endpoint_handler_absorbs.
  now rewrite Hmarker.
Qed.

(** On the simulated platform, the endpoint cell of a second run. *)
Lemma create_endpoint_already_exists_witness :
  try_create_endpoint Sim.platform Sim.settings (start SimWorlds.after_first_run) =
    (Returned tt,
     mkRun SimWorlds.after_first_run
       ([] ++ [raised (CCreateEndpointAndWait (VECTOR_SEARCH_ENDPOINT_NAME Sim.settings)
                         "STANDARD") Sim.already_exists_endpoint])
       ([] ++ [endpoint_exists_line Sim.settings])).
Proof.
  apply (create_endpoint_already_exists_is_noop Sim.platform Sim.settings
           (start SimWorlds.after_first_run) Sim.already_exists_endpoint
           SimWorlds.after_first_run); vm_compute; reflexivity.
Defined.

(** A whole second run on the simulated platform: it returns, it prints the
    two already-exists lines, and it leaves the endpoints and the indexes as
    the first run made them. *)
Example second_run_changes_nothing :
  let first := notebook Sim.platform Sim.config 3 (start Sim.empty_world) in
  let second := notebook Sim.platform Sim.config 3 (start (world (snd first))) in
  (exists results, fst second = Returned results)
  /\ stdout (snd second) =
       [ "Endpoint vs_endpoint already exists. Continuing...";
         "Creating index main.telco.faq_index on endpoint vs_endpoint...";
         "Index main.telco.faq_index already exists. Continuing..." ]
  /\ Sim.endpoints (world (snd second)) = Sim.endpoints (world (snd first))
  /\ Sim.indexes (world (snd second)) = Sim.indexes (world (snd first))
  /\ Sim.tables (world (snd second)) = Sim.tables (world (snd first)).
Proof. vm_compute. repeat split. eexists. reflexivity. Qed.

(** ** Which errors are swallowed and which are raised again *)

(** C3, as the specification states it, fails: while the registry of the
    simulated platform is busy, creating the index fails with a 409 response
    that is a ResourceConflict and not an already-exists error, and the
    [try] statement returns normally instead of raising it. *)
Lemma conflict_at_index_creation_is_swallowed :
  create_delta_sync_index Sim.platform (index_args Sim.settings) SimWorlds.busy_world
    = (Exc Sim.conflict, SimWorlds.busy_world)
  /\ index_error_kind Sim.conflict = ResourceConflict
  /\ str_in index_marker (exc_str Sim.conflict) = false
  /\ try_create_index Sim.platform 3 Sim.settings (start SimWorlds.busy_world) =
       (Returned tt,
        mkRun SimWorlds.busy_world
          [raised (CCreateDeltaSyncIndex (index_args Sim.settings)) Sim.conflict]
          [index_exists_line Sim.settings]).
Proof. vm_compute. repeat split. Qed.

(** C3, amended.  A failure of endpoint creation, of index creation or of
    the readiness polling that follows it, whose message contains neither
    the already-exists code that the handler looks for nor "status_code 409",
    is raised again unmodified: the same exception reaches the caller, and
    the handler neither prints nor calls anything. *)
Theorem unabsorbed_errors_propagate :
  forall (P : Platform) (fuel : nat) (st : Settings) (s : Run (World P)) (e : PyExc),
    (forall w',
        create_endpoint_and_wait P (VECTOR_SEARCH_ENDPOINT_NAME st) "STANDARD" (world s)
          = (Exc e, w') ->
        str_in endpoint_marker (exc_str e) = false ->
        str_in conflict_marker (exc_str e) = false ->
        try_create_endpoint P st s =
          (Raised e,
           mkRun w'
             (trace s ++ [raised (CCreateEndpointAndWait (VECTOR_SEARCH_ENDPOINT_NAME st)
                                    "STANDARD") e])
             (stdout s)))
    /\ (forall w',
        create_delta_sync_index P (index_args st) (world s) = (Exc e, w') ->
        str_in index_marker (exc_str e) = false ->
        str_in conflict_marker (exc_str e) = false ->
        try_create_index P fuel st s =
          (Raised e,
           mkRun w' (trace s ++ [raised (CCreateDeltaSyncIndex (index_args st)) e])
             (stdout s)))
    /\ (forall s',
        create_index_and_wait P fuel st s = (Raised e, s') ->
        str_in index_marker (exc_str e) = false ->
        str_in conflict_marker (exc_str e) = false ->
        try_create_index P fuel st s = (Raised e, s')).
Proof.
  intros P fuel st s e. repeat split.
  - intros w' Hcall Hm Hc. unfold try_create_endpoint.
    rewrite (try_except_raised P _ _ _ _ _ (create_endpoint_raised P st s e w' Hcall)).
    rewrite endpoint_handler_run. unfold endpoint_handler_absorbs.
    now rewrite Hm, Hc.
  - intros w' Hcall Hm Hc. unfold try_create_index.
    rewrite (try_except_raised P _ _ _ _ _ (create_index_raised P st fuel s e w' Hcall)).
    rewrite index_handler_run. unfold index_handler_absorbs.
    now rewrite Hm, Hc.
  - intros s' Hbody Hm Hc. unfold try_create_index.
    rewrite (try_except_raised P _ _ _ _ _ Hbody).
    rewrite index_handler_run. unfold index_handler_absorbs.
    now rewrite Hm, Hc.
Qed.

(** Three failures that are raised again: an endpoint without a name, an
    index over a table that does not exist, and a [describe()] answer
    without a status, on which [.get] fails. *)
Lemma unabsorbed_errors_propagate_witness :
  try_create_endpoint Sim.platform SimWorlds.unnamed_endpoint (start Sim.empty_world) =
    (Raised Sim.invalid_name,
     mkRun Sim.empty_world
       ([] ++ [raised (CCreateEndpointAndWait "" "STANDARD") Sim.invalid_name]) [])
  /\ try_create_index Sim.platform 3 Sim.settings (start Sim.empty_world) =
    (Raised Sim.no_source_table,
     mkRun Sim.empty_world
       ([] ++ [raised (CCreateDeltaSyncIndex (index_args Sim.settings)) Sim.no_source_table])
       [])
  /\ fst (try_create_index Sim.platform_without_status 3 Sim.settings
            (start SimWorlds.with_table)) = Raised (AttributeError "get").
Proof.
  split; [|split].
  - apply (proj1 (unabsorbed_errors_propagate Sim.platform 3 SimWorlds.unnamed_endpoint
                    (start Sim.empty_world) Sim.invalid_name));
      vm_compute; reflexivity.
  - apply (proj1 (proj2 (unabsorbed_errors_propagate Sim.platform 3 Sim.settings
                           (start Sim.empty_world) Sim.no_source_table)));
      vm_compute; reflexivity.
  - rewrite (proj2 (proj2 (unabsorbed_errors_propagate Sim.platform_without_status 3
                             Sim.settings (start SimWorlds.with_table)
                             (AttributeError "get")))
               (snd (create_index_and_wait Sim.platform_without_status 3 Sim.settings
                       (start SimWorlds.with_table))));
      vm_compute; reflexivity.
Defined.

(** C4, as the specification states it, fails: the 409 response of a busy
    registry is a ResourceConflict, it does not carry the already-exists
    code, and yet the handler of the endpoint cell absorbs it: the [try]
    statement returns normally and reports that the endpoint already
    exists. *)
Lemma conflict_is_absorbed_like_already_exists :
  create_endpoint_and_wait Sim.platform "vs_endpoint" "STANDARD" SimWorlds.busy_world
    = (Exc Sim.conflict, SimWorlds.busy_world)
  /\ endpoint_error_kind Sim.conflict = ResourceConflict
  /\ str_in endpoint_marker (exc_str Sim.conflict) = false
  /\ endpoint_handler_absorbs (exc_str Sim.conflict) = true
  /\ try_create_endpoint Sim.platform Sim.settings (start SimWorlds.busy_world) =
       (Returned tt,
        mkRun SimWorlds.busy_world
          [raised (CCreateEndpointAndWait "vs_endpoint" "STANDARD") Sim.conflict]
          ["Endpoint vs_endpoint already exists. Continuing..."]).
Proof. vm_compute. repeat split. Qed.

(** C4, amended.  The handlers tell errors apart by two substrings of the
    message only.  When the creation call of a cell raises [e], the [try]
    statement returns normally exactly when [e] is AlreadyExists (its
    message carries the already-exists code of that cell) or a
    ResourceConflict (another message that contains "status_code 409"), and
    raises [e] again exactly when it is neither: a ResourceConflict is
    absorbed as a silent success, like AlreadyExists. *)
Theorem absorbed_iff_already_exists_or_conflict :
  forall (P : Platform) (fuel : nat) (st : Settings) (s : Run (World P)) (e : PyExc),
    (forall w',
        create_endpoint_and_wait P (VECTOR_SEARCH_ENDPOINT_NAME st) "STANDARD" (world s)
          = (Exc e, w') ->
        (fst (try_create_endpoint P st s) = Returned tt <->
           endpoint_error_kind e = AlreadyExists \/ endpoint_error_kind e = ResourceConflict)
        /\ (fst (try_create_endpoint P st s) = Raised e <->
              endpoint_error_kind e = OtherError))
    /\ (forall w',
        create_delta_sync_index P (index_args st) (world s) = (Exc e, w') ->
        (fst (try_create_index P fuel st s) = Returned tt <->
           index_error_kind e = AlreadyExists \/ index_error_kind e = ResourceConflict)
        /\ (fst (try_create_index P fuel st s) = Raised e <->
              index_error_kind e = OtherError)).
Proof.
  intros P fuel st s e. split; intros w' Hcall.
  - unfold try_create_endpoint, endpoint_error_kind.
    rewrite (try_except_raised P _ _ _ _ _ (create_endpoint_raised P st s e w' Hcall)).
    rewrite endpoint_handler_run.
    rewrite <- absorbs_iff_kind, <- not_absorbs_iff_kind.
    unfold endpoint_handler_absorbs.
    destruct (str_in endpoint_marker (exc_str e) || str_in conflict_marker (exc_str e));
      simpl; repeat split; intros H; auto; discriminate.
  - unfold try_create_index, index_error_kind.
    rewrite (try_except_raised P _ _ _ _ _ (create_index_raised P st fuel s e w' Hcall)).
    rewrite index_handler_run.
    rewrite <- absorbs_iff_kind, <- not_absorbs_iff_kind.
    unfold index_handler_absorbs.
    destruct (str_in index_marker (exc_str e) || str_in conflict_marker (exc_str e));
      simpl; repeat split; intros H; auto; discriminate.
Qed.

(** On the simulated platform: the endpoint of the first run exists, the
    error is AlreadyExists and is absorbed; the index cannot be created over a
    missing table, the error is of another kind and is raised again. *)
Lemma absorbed_iff_already_exists_or_conflict_witness :
  fst (try_create_endpoint Sim.platform Sim.settings (start SimWorlds.after_first_run))
    = Returned tt
  /\ fst (try_create_index Sim.platform 3 Sim.settings (start Sim.empty_world))
    = Raised Sim.no_source_table.
Proof.
  split.
  - apply (proj1 (proj1 (absorbed_iff_already_exists_or_conflict Sim.platform 3
                           Sim.settings (start SimWorlds.after_first_run)
                           Sim.already_exists_endpoint)
                    SimWorlds.after_first_run eq_refl)).
    left; vm_compute; reflexivity.
  - apply (proj2 (proj2 (absorbed_iff_already_exists_or_conflict Sim.platform 3
                           Sim.settings (start Sim.empty_world) Sim.no_source_table)
                    Sim.empty_world eq_refl)).
    vm_compute; reflexivity.
Defined.

(** ** The readiness polling loop *)

Section Polling.

Variable P : Platform.
Variable h : IndexHandle.

(** One turn of the loop that finds the index ONLINE. *)
Lemma wait_online : forall fuel s ds w',
  describe P h (world s) = (Ret (reports ds), w') ->
  startswith ds "ONLINE" = true ->
  wait_until_online P (S fuel) h s =
    (Returned tt, mkRun w' (trace s ++ [returned (CDescribe h)]) (stdout s)).
Proof.
  intros fuel s ds w' Hd Hon. cbn [wait_until_online]. unfold bind, invoke.
  rewrite Hd. cbn. now rewrite Hon.
Qed.

(** One turn of the loop that does not: a line is printed, five seconds
    pass, and the loop goes on with one unit of fuel less. *)
Lemma wait_not_online : forall fuel s ds w1,
  describe P h (world s) = (Ret (reports ds), w1) ->
  startswith ds "ONLINE" = false ->
  wait_until_online P (S fuel) h s =
    wait_until_online P fuel h
      (mkRun (sleep P 5 w1)
         (trace s ++ [returned (CDescribe h); returned (CSleep 5)])
         (stdout s ++ [waiting_line])).
Proof.
  intros fuel s ds w1 Hd Hoff. cbn [wait_until_online]. unfold bind at 1, invoke at 1.
  rewrite Hd. cbn. rewrite Hoff. cbn. now rewrite <- app_assoc.
Qed.

Lemma wait_polls : forall n w w',
  polls P h n w w' ->
  forall fuel tr out,
    ((n < fuel)%nat ->
     wait_until_online P fuel h (mkRun w tr out) =
       (Returned tt, mkRun w' (tr ++ poll_trace h n) (out ++ repeat waiting_line n)))
    /\ ((fuel <= n)%nat ->
        fst (wait_until_online P fuel h (mkRun w tr out)) = Running).
Proof.
  induction 1 as [w w' ds Hd Hon | n w w1 w' ds Hd Hoff Hrest IH]; intros fuel tr out.
  - split; intros Hfuel.
    + destruct fuel as [|fuel]; [lia|].
      rewrite (wait_online fuel (mkRun w tr out) ds w' Hd Hon). cbn.
      now rewrite app_nil_r.
    + replace fuel with O by lia. reflexivity.
  - destruct fuel as [|fuel].
    + split; [lia | reflexivity].
    + rewrite (wait_not_online fuel (mkRun w tr out) ds w1 Hd Hoff). cbn [world trace stdout].
      destruct (IH fuel (tr ++ [returned (CDescribe h); returned (CSleep 5)])%list
                  (out ++ [waiting_line])%list) as [IHdone IHrunning].
      split; intros Hfuel.
      * rewrite IHdone by lia. cbn [poll_trace repeat].
        now rewrite <- !app_assoc.
      * apply IHrunning. lia.
Qed.

(** One turn of the loop, in full: the poll may raise, the answer may lack
    a status or a state, the state may start with ONLINE, or the loop sleeps
    and goes on. *)
Lemma wait_turn : forall fuel s,
  wait_until_online P (S fuel) h s =
    match describe P h (world s) with
    | (Exc e, w1) =>
        (Raised e, mkRun w1 (trace s ++ [raised (CDescribe h) e]) (stdout s))
    | (Ret d, w1) =>
        let s1 := mkRun w1 (trace s ++ [returned (CDescribe h)]) (stdout s) in
        match status d with
        | None => (Raised (AttributeError "get"), s1)
        | Some sd =>
            match detailed_state sd with
            | None => (Raised (AttributeError "startswith"), s1)
            | Some ds =>
                if startswith ds "ONLINE" then (Returned tt, s1)
                else wait_until_online P fuel h
                       (mkRun (sleep P 5 w1)
                          (trace s ++ [returned (CDescribe h); returned (CSleep 5)])
                          (stdout s ++ [waiting_line]))
            end
        end
    end.
Proof.
  intros fuel s. cbn [wait_until_online]. unfold bind at 1, invoke at 1.
  destruct (describe P h (world s)) as [[d|e] w1]; [|reflexivity].
  unfold bind at 1, is_online.
  destruct (status d) as [sd|]; [|reflexivity].
  destruct (detailed_state sd) as [ds|]; [|reflexivity].
  cbn. destruct (startswith ds "ONLINE"); [reflexivity|].
  cbn. now rewrite <- app_assoc.
Qed.

(** Fuel only decides how long the loop is followed: once it has returned
    or raised, more fuel gives the same result. *)
Lemma wait_more_fuel : forall fuel fuel' s,
  (fuel <= fuel')%nat ->
  fst (wait_until_online P fuel h s) <> Running ->
  wait_until_online P fuel' h s = wait_until_online P fuel h s.
Proof.
  induction fuel as [|fuel IH]; intros fuel' s Hle Hends.
  - now contradiction Hends.
  - destruct fuel' as [|fuel']; [lia|].
    rewrite !wait_turn in *.
    destruct (describe P h (world s)) as [[d|e] w1]; [|reflexivity].
    cbn zeta in *.
    destruct (status d) as [sd|]; [|reflexivity].
    destruct (detailed_state sd) as [ds|]; [|reflexivity].
    destruct (startswith ds "ONLINE"); [reflexivity|].
    apply IH; [lia | assumption].
Qed.

(** The loop raises nothing of its own: an exception that leaves it was
    raised by [describe()], or is the AttributeError of reading a missing
    status or state.  In particular it never raises a timeout. *)
Lemma wait_raised_origin : forall fuel s e s',
  wait_until_online P fuel h s = (Raised e, s') ->
  (exists tr, trace s' = (tr ++ [raised (CDescribe h) e])%list)
  \/ e = AttributeError "get" \/ e = AttributeError "startswith".
Proof.
  induction fuel as [|fuel IH]; intros s e s' H; [discriminate H|].
  rewrite wait_turn in H.
  destruct (describe P h (world s)) as [[d|e0] w1].
  - cbn zeta in H.
    destruct (status d) as [sd|]; [|inversion H; auto].
    destruct (detailed_state sd) as [ds|]; [|inversion H; auto].
    destruct (startswith ds "ONLINE"); [discriminate H | exact (IH _ _ _ H)].
  - inversion H; subst. left. now exists (trace s).
Qed.

End Polling.

(** On the simulated platform an index that FAILED stays so, and the loop
    that waits for it is still running after any number of polls. *)
Lemma wait_on_failed_index_runs : forall fuel c tr out,
  fst (wait_until_online Sim.platform fuel SimWorlds.handle
         (mkRun (SimWorlds.with_index Sim.FAILED false c) tr out)) = Running.
Proof.
  induction fuel as [|fuel IH]; intros c tr out; [reflexivity|].
  rewrite (wait_not_online Sim.platform SimWorlds.handle fuel _ "FAILED"
             (SimWorlds.with_index Sim.FAILED false c)) by reflexivity.
  apply (IH (c + 5)).
Qed.

(** C2, as the specification states it, fails: the embedding endpoint is
    down and the index has FAILED; the loop that polls it never comes to an
    end, neither by returning nor by raising a Timeout, however many polls
    it is given. *)
Lemma polling_never_ends_on_failed_index :
  ~ polling_ends Sim.platform SimWorlds.handle
      (start (SimWorlds.with_index Sim.FAILED false 0)).
Proof.
  intros [fuel Hends]. apply Hends. apply wait_on_failed_index_runs.
Qed.

(** C2, amended.  The loop polls [describe()] and sleeps a fixed five
    seconds after every poll whose state does not start with ONLINE; it has
    no deadline and no limit on the number of polls, and it reports no
    Timeout.  When the first [n] polls find the index not ONLINE and the next
    one finds it ONLINE, the loop returns after exactly [n + 1] polls and [n]
    sleeps of five seconds, having printed [n] lines, provided it is given
    more than [n] turns; with [n] turns or fewer it is still running, for
    every [n]. *)
Theorem wait_until_online_needs_every_poll :
  forall (P : Platform) (h : IndexHandle) (n : nat) (s : Run (World P)) (w' : World P),
    polls P h n (world s) w' ->
    forall fuel : nat,
      ((n < fuel)%nat ->
       wait_until_online P fuel h s =
         (Returned tt,
          mkRun w' (trace s ++ poll_trace h n) (stdout s ++ repeat waiting_line n)))
      /\ ((fuel <= n)%nat -> fst (wait_until_online P fuel h s) = Running).
Proof.
  intros P h n [w tr out] w' Hpolls fuel.
  exact (wait_polls P h n w w' Hpolls fuel tr out).
Qed.

(** On the simulated platform a new index is ONLINE at the third poll: the
    loop returns with three turns, after two sleeps, ten seconds later, and
    is still running with two. *)
Lemma wait_until_online_witness :
  wait_until_online Sim.platform 3 SimWorlds.handle
    (start (SimWorlds.with_index Sim.PROVISIONING true 0)) =
    (Returned tt,
     mkRun (SimWorlds.with_index Sim.ONLINE true 10)
       ([] ++ poll_trace SimWorlds.handle 2) ([] ++ repeat waiting_line 2))
  /\ fst (wait_until_online Sim.platform 2 SimWorlds.handle
            (start (SimWorlds.with_index Sim.PROVISIONING true 0))) = Running.
Proof.
  assert (Hpolls : polls Sim.platform SimWorlds.handle 2
                     (world (start (SimWorlds.with_index Sim.PROVISIONING true 0)))
                     (SimWorlds.with_index Sim.ONLINE true 10)).
  { apply polls_wait with (w1 := SimWorlds.with_index Sim.PROVISIONING true 0)
                          (ds := "PROVISIONING"); [reflexivity | reflexivity |].
    apply polls_wait with (w1 := SimWorlds.with_index Sim.SYNCING true 5)
                          (ds := "SYNCING"); [reflexivity | reflexivity |].
    apply polls_online with (ds := "ONLINE"); reflexivity. }
  split.
  - apply (wait_until_online_needs_every_poll Sim.platform SimWorlds.handle 2 _ _ Hpolls 3).
    lia.
  - apply (wait_until_online_needs_every_poll Sim.platform SimWorlds.handle 2 _ _ Hpolls 2).
    lia.
Defined.

(** ** What each piece of the notebook adds to the trace *)

Section Emits.

Context {W : Type}.
Variable Q : Event -> bool.

Lemma only_emits_ret : forall {A} (a : A), only_emits Q (@ret W A a).
Proof.
  intros A a s o s' H. inversion H; subst. exists []. now rewrite app_nil_r.
Qed.

Lemma only_emits_raise : forall {A} e, only_emits Q (@raise W A e).
Proof.
  intros A e s o s' H. inversion H; subst. exists []. now rewrite app_nil_r.
Qed.

Lemma only_emits_out_of_fuel : forall {A}, only_emits Q (@out_of_fuel W A).
Proof.
  intros A s o s' H. inversion H; subst. exists []. now rewrite app_nil_r.
Qed.

Lemma only_emits_print : forall line, only_emits Q (@print W line).
Proof.
  intros line s o s' H. inversion H; subst. exists []. cbn. now rewrite app_nil_r.
Qed.

Lemma only_emits_invoke : forall {A} c (op : W -> Reply A * W),
  Q (returned c) = true ->
  (forall e, Q (raised c e) = true) ->
  only_emits Q (invoke c op).
Proof.
  intros A c op Hret Hexc s o s' H. unfold invoke in H.
  destruct (op (world s)) as [[a|e] w']; inversion H; subst; cbn.
  - exists [returned c]. cbn. now rewrite Hret.
  - exists [raised c e]. cbn. now rewrite Hexc.
Qed.

Lemma only_emits_bind : forall {A B} (m : M W A) (k : A -> M W B),
  only_emits Q m -> (forall a, only_emits Q (k a)) -> only_emits Q (bind m k).
Proof.
  intros A B m k Hm Hk s o s' H. unfold bind in H.
  destruct (m s) as [[a|e|] s1] eqn:Hms.
  - destruct (Hm _ _ _ Hms) as [l1 [E1 F1]].
    destruct (Hk a _ _ _ H) as [l2 [E2 F2]].
    exists (l1 ++ l2)%list. rewrite E2, E1, app_assoc, forallb_app, F1, F2. now split.
  - inversion H; subst. exact (Hm _ _ _ Hms).
  - inversion H; subst. exact (Hm _ _ _ Hms).
Qed.

Lemma only_emits_try : forall {A} (body : M W A) handler,
  only_emits Q body -> (forall e, only_emits Q (handler e)) ->
  only_emits Q (try_except body handler).
Proof.
  intros A body handler Hb Hh s o s' H. unfold try_except in H.
  destruct (body s) as [[a|e|] s1] eqn:Hbs.
  - inversion H; subst. exact (Hb _ _ _ Hbs).
  - destruct (Hb _ _ _ Hbs) as [l1 [E1 F1]].
    destruct (Hh e _ _ _ H) as [l2 [E2 F2]].
    exists (l1 ++ l2)%list. rewrite E2, E1, app_assoc, forallb_app, F1, F2. now split.
  - inversion H; subst. exact (Hb _ _ _ Hbs).
Qed.

End Emits.

Lemma added_since_app : forall {W} (s s' : Run W) added,
  trace s' = (trace s ++ added)%list -> added_since s s' = added.
Proof.
  intros W s s' added E. unfold added_since. rewrite E. clear E.
  induction (trace s) as [|ev l IH]; [reflexivity | exact IH].
Qed.

Section NotebookTrace.

Variable P : Platform.
Variable config : Config.

Lemma wait_emits_no_create : forall fuel h,
  only_emits not_create (wait_until_online P fuel h).
Proof.
  induction fuel as [|fuel IH]; intros h; cbn [wait_until_online].
  - apply only_emits_out_of_fuel.
  - apply only_emits_bind; [now apply only_emits_invoke|]. intros d.
    apply only_emits_bind.
    + unfold is_online. destruct (status d) as [sd|]; [|apply only_emits_raise].
      destruct (detailed_state sd); [apply only_emits_ret | apply only_emits_raise].
    + intros [|]; [apply only_emits_ret|].
      apply only_emits_bind; [apply only_emits_print|]. intros _.
      apply only_emits_bind; [now apply only_emits_invoke | intros _; apply IH].
Qed.

Lemma query_emits_no_create : forall st args,
  only_emits not_create (query P st args).
Proof.
  intros st args. unfold query.
  apply only_emits_bind; [now apply only_emits_invoke|].
  intros h. now apply only_emits_invoke.
Qed.

Lemma index_handler_emits : forall Q st e, only_emits Q (index_handler P st e).
Proof.
  intros Q st e. unfold index_handler.
  destruct (index_handler_absorbs (exc_str e));
    [apply only_emits_print | apply only_emits_raise].
Qed.

End NotebookTrace.

(** ** A second run does not wait for the index *)

(** What the [try] statement of the index cell does when the creation call
    itself raises: the handler decides, and nothing else is called. *)
Lemma try_create_index_rejected : forall (P : Platform) fuel st s e w1,
  create_delta_sync_index P (index_args st) (world s) = (Exc e, w1) ->
  try_create_index P fuel st s =
    if index_handler_absorbs (exc_str e)
    then (Returned tt,
          mkRun w1 (trace s ++ [raised (CCreateDeltaSyncIndex (index_args st)) e])
            (stdout s ++ [index_exists_line st]))
    else (Raised e,
          mkRun w1 (trace s ++ [raised (CCreateDeltaSyncIndex (index_args st)) e])
            (stdout s)).
Proof.
  intros P fuel st s e w1 Hcreate. unfold try_create_index.
  rewrite (try_except_raised P _ _ _ _ _ (create_index_raised P st fuel s e w1 Hcreate)).
  now rewrite index_handler_run.
Qed.

(** The index cell up to its [try] statement, when ALTER TABLE succeeds. *)
Lemma cell_create_index_altered : forall (P : Platform) fuel st s df w0,
  spark_sql P (alter_query st) (world s) = (Ret df, w0) ->
  cell_create_index P fuel st s =
    try_create_index P fuel st
      (mkRun w0 (trace s ++ [returned (CSparkSql (alter_query st))])
         (stdout s ++ [creating_line st])).
Proof.
  intros P fuel st s df w0 Halter. unfold cell_create_index.
  unfold bind at 1, invoke. rewrite Halter. reflexivity.
Qed.

(** C9.  When [create_delta_sync_index] raises an already-exists error, the
    index cell is over at once and the next call of the notebook is the
    first query: after the rejected creation come [get_index] and
    [similarity_search], and no [describe()] in between, so the query is
    issued whatever the state of the index, and its reply is the outcome of
    the cell.  Conversely, if the index cell polled [describe()] at all,
    then the creation call had returned: the loop runs only when the index
    was newly created. *)
Theorem already_exists_skips_polling :
  forall (P : Platform) (fuel : nat) (st : Settings) (s : Run (World P)),
    (forall df w0 e w1 h w2 r w3,
        spark_sql P (alter_query st) (world s) = (Ret df, w0) ->
        create_delta_sync_index P (index_args st) w0 = (Exc e, w1) ->
        str_in index_marker (exc_str e) = true ->
        get_index P (VECTOR_SEARCH_ENDPOINT_NAME st) (vs_index_fullname st) w1
          = (Ret h, w2) ->
        similarity_search P h ann_args w2 = (r, w3) ->
        trace (snd ((cell_create_index P fuel st;; cell_ann_search P st) s)) =
          (trace s ++
             [ returned (CSparkSql (alter_query st));
               raised (CCreateDeltaSyncIndex (index_args st)) e;
               returned (CGetIndex (VECTOR_SEARCH_ENDPOINT_NAME st) (vs_index_fullname st));
               (CSimilaritySearch h ann_args, reply_exc r) ])%list
        /\ fst ((cell_create_index P fuel st;; cell_ann_search P st) s) =
             match r with
             | Ret rows => Returned rows
             | Exc e' => Raised e'
             end)
    /\ (forall o s',
        cell_create_index P fuel st s = (o, s') ->
        existsb is_describe (added_since s s') = true ->
        exists df w0 h w1,
          spark_sql P (alter_query st) (world s) = (Ret df, w0) /\
          create_delta_sync_index P (index_args st) w0 = (Ret h, w1)).
Proof.
  intros P fuel st s. split.
  - intros df w0 e w1 h w2 r w3 Halter Hcreate Hmarker Hget Hsearch.
    set (s0 := mkRun w0 (trace s ++ [returned (CSparkSql (alter_query st))])
                 (stdout s ++ [creating_line st])).
    assert (Hcell : cell_create_index P fuel st s =
                    (Returned tt,
                     mkRun w1
                       (trace s0 ++ [raised (CCreateDeltaSyncIndex (index_args st)) e])
                       (stdout s0 ++ [index_exists_line st]))).
    { rewrite (cell_create_index_altered P fuel st s df w0 Halter). fold s0.
      rewrite (try_create_index_rejected P fuel st s0 e w1 Hcreate).
      unfold index_handler_absorbs. now rewrite Hmarker. }
    rewrite (bind_returned P _ _ _ _ _ Hcell).
    unfold cell_ann_search, query, bind, invoke. cbn [world trace stdout].
    rewrite Hget. cbn [world trace stdout]. rewrite Hsearch.
    destruct r as [rows|e']; cbn; now rewrite <- !app_assoc.
  - intros o s' Hrun Hdescribe.
    destruct (spark_sql P (alter_query st) (world s)) as [[df|e] w0] eqn:Halter.
    + rewrite (cell_create_index_altered P fuel st s df w0 Halter) in Hrun.
      set (s0 := mkRun w0 (trace s ++ [returned (CSparkSql (alter_query st))])
                   (stdout s ++ [creating_line st])) in Hrun.
      destruct (create_delta_sync_index P (index_args st) w0) as [[h|e] w1] eqn:Hcreate.
      * now exists df, w0, h, w1.
      * exfalso. rewrite (try_create_index_rejected P fuel st s0 e w1 Hcreate) in Hrun.
        assert (Hadded : added_since s s'
                         = [returned (CSparkSql (alter_query st));
                            raised (CCreateDeltaSyncIndex (index_args st)) e]).
        { apply added_since_app. subst s0.
          destruct (index_handler_absorbs (exc_str e)); inversion Hrun; cbn;
            now rewrite <- app_assoc. }
        rewrite Hadded in Hdescribe. discriminate.
    + exfalso. unfold cell_create_index in Hrun. unfold bind at 1, invoke in Hrun.
      rewrite Halter in Hrun. inversion Hrun; subst.
      assert (Hadded : added_since s
                         (mkRun w0 (trace s ++ [raised (CSparkSql (alter_query st)) e])
                            (stdout s))
                       = [raised (CSparkSql (alter_query st)) e])
        by now apply added_since_app.
      rewrite Hadded in Hdescribe. discriminate.
Qed.

(** On the simulated platform: the index exists but is still PROVISIONING,
    as after an interrupted first run.  The second run is told that it
    exists, polls nothing, and queries it at once; here the service refuses
    the query. *)
Lemma already_exists_skips_polling_witness :
  trace (snd ((cell_create_index Sim.platform 3 Sim.settings;;
               cell_ann_search Sim.platform Sim.settings)
                (start (SimWorlds.with_index Sim.PROVISIONING true 0)))) =
    ([] ++ [ returned (CSparkSql (alter_query Sim.settings));
             raised (CCreateDeltaSyncIndex (index_args Sim.settings))
               Sim.already_exists_index;
             returned (CGetIndex "vs_endpoint" "main.telco.faq_index");
             (CSimilaritySearch SimWorlds.handle ann_args, Some Sim.not_ready) ])%list
  /\ fst ((cell_create_index Sim.platform 3 Sim.settings;;
           cell_ann_search Sim.platform Sim.settings)
            (start (SimWorlds.with_index Sim.PROVISIONING true 0))) =
       Raised Sim.not_ready.
Proof.
  apply (proj1 (already_exists_skips_polling Sim.platform 3 Sim.settings
                  (start (SimWorlds.with_index Sim.PROVISIONING true 0)))
           (mkDF [] [])
           (SimWorlds.altered Sim.PROVISIONING)
           Sim.already_exists_index
           (SimWorlds.altered Sim.PROVISIONING)
           SimWorlds.handle
           (SimWorlds.altered Sim.PROVISIONING)
           (Exc Sim.not_ready)
           (SimWorlds.altered Sim.PROVISIONING));
    vm_compute; reflexivity.
Defined.

(** ** What precedes the creation of the index *)

Lemma bind_cases : forall {W A B} (m : M W A) (k : A -> M W B) s o s',
  bind m k s = (o, s') ->
  exists o1 s1,
    m s = (o1, s1) /\
    match o1 with
    | Returned a => k a s1 = (o, s')
    | Raised e => o = Raised e /\ s' = s1
    | Running => o = Running /\ s' = s1
    end.
Proof.
  intros W A B m k s o s' H. unfold bind in H.
  destruct (m s) as [[a|e|] s1].
  - exists (Returned a), s1. now split.
  - exists (Raised e), s1. inversion H. now split.
  - exists Running, s1. inversion H. now split.
Qed.

Ltac run_step H :=
  cbn [world trace stdout] in H;
  match type of H with
  | context [match ?x with _ => _ end] =>
      lazymatch x with
      | context [match _ with _ => _ end] => fail
      | _ => first [ destruct x as [[?a|?e] ?w] | destruct x ]
      end
  end.

Ltac run_done H :=
  cbn [world trace stdout] in H; inversion H; subst; clear H;
  cbn [trace]; rewrite <- ?app_assoc; cbn [app];
  eexists; split; [reflexivity|].

Section BeforeCreate.

Variable P : Platform.
Variable config : Config.

Lemma no_create_in : forall l a x,
  forallb not_create l = true -> ~ In (CCreateDeltaSyncIndex a, x) l.
Proof.
  intros l a x Hall Hin. rewrite forallb_forall in Hall.
  specialize (Hall _ Hin). discriminate.
Qed.

(** The cells above the index cell never create an index, and when they
    all succeed, the literal dataset has been written to the table. *)
Lemma prelude_trace : forall s o s',
  prelude P config s = (o, s') ->
  exists added,
    trace s' = (trace s ++ added)%list /\
    forallb not_create added = true /\
    (forall st, o = Returned st ->
       exists early middle,
         added = (early ++ save_event (source_table st) :: middle)%list).
Proof.
  intros s o s' H.
  unfold prelude, cell_update_libraries, cell_setup_config, cell_create_dataset,
    cell_select_all, cell_create_endpoint, cell_init_client, try_create_endpoint,
    create_endpoint, endpoint_handler, config_get, try_except, bind, invoke,
    ret, raise, print in H.
  repeat run_step H; run_done H;
    (split; [reflexivity|]); intros st0 Hst; try discriminate Hst;
    injection Hst as <-;
    exists [returned (CPipInstall "-U --quiet databricks-sdk==0.28.0 databricks-vectorsearch");
            returned CRestartPython];
    eexists; reflexivity.
Qed.

End BeforeCreate.

Section CreateIndexCell.

Variable P : Platform.

(** When the creation call returns, the rest of the [try] statement is the
    polling loop and the line that follows it, under the same handler. *)
Lemma try_create_index_created : forall fuel st s h w1,
  create_delta_sync_index P (index_args st) (world s) = (Ret h, w1) ->
  try_create_index P fuel st s =
    try_except (wait_until_online P fuel h;; print (index_ready_line st))
      (index_handler P st)
      (mkRun w1 (trace s ++ [returned (CCreateDeltaSyncIndex (index_args st))]) (stdout s)).
Proof.
  intros fuel st s h w1 Hcreate.
  unfold try_create_index, create_index_and_wait, try_except.
  unfold bind at 1, invoke. now rewrite Hcreate.
Qed.

(** The index cell enables the change data feed, and only then, if that
    statement succeeded, calls [create_delta_sync_index], once. *)
Lemma cell_create_index_trace : forall fuel st s o s',
  cell_create_index P fuel st s = (o, s') ->
  exists added,
    trace s' = (trace s ++ added)%list /\
    (forallb not_create added = true \/
     exists x late,
       added = returned (CSparkSql (alter_query st))
                 :: (CCreateDeltaSyncIndex (index_args st), x) :: late /\
       forallb not_create late = true).
Proof.
  intros fuel st s o s' H. unfold cell_create_index in H.
  apply bind_cases in H. destruct H as (o1 & s1 & Halter & H).
  unfold invoke in Halter.
  destruct (spark_sql P (alter_query st) (world s)) as [[df|e] w1];
    inversion Halter; subst; clear Halter.
  2:{ destruct H as [-> ->]. eexists; split; [reflexivity|]. now left. }
  apply bind_cases in H. destruct H as (o2 & s2 & Hprint & H).
  inversion Hprint; subst; clear Hprint. cbn [world trace stdout] in H.
  set (s1 := mkRun w1 (trace s ++ [returned (CSparkSql (alter_query st))])
               (stdout s ++ [creating_line st])) in H.
  destruct (create_delta_sync_index P (index_args st) w1) as [[h|e] w2] eqn:Hcreate.
  - rewrite (try_create_index_created fuel st s1 h w2 Hcreate) in H.
    assert (Hrest : only_emits not_create
                      (try_except (wait_until_online P fuel h;; print (index_ready_line st))
                         (index_handler P st))).
    { apply only_emits_try; [|intros e; apply index_handler_emits].
      apply only_emits_bind; [apply wait_emits_no_create|].
      intros _. apply only_emits_print. }
    destruct (Hrest _ _ _ H) as (late & Hlate & Hno). cbn [trace] in Hlate.
    exists (returned (CSparkSql (alter_query st))
              :: (CCreateDeltaSyncIndex (index_args st), None) :: late).
    split; [rewrite Hlate; subst s1; cbn [trace]; now rewrite <- !app_assoc|].
    right. now exists None, late.
  - rewrite (try_create_index_rejected P fuel st s1 e w2 Hcreate) in H.
    exists [returned (CSparkSql (alter_query st));
            (CCreateDeltaSyncIndex (index_args st), Some e)].
    split.
    + subst s1.
      destruct (index_handler_absorbs (exc_str e)); inversion H; subst; cbn;
        now rewrite <- !app_assoc.
    + right. now exists (Some e), [].
Qed.

End CreateIndexCell.

(** ** The two queries *)

(** The query cells have no handler and no check of their own: the cell
    returns the rows that [similarity_search] returns and raises what it
    raises. *)
Lemma query_reply : forall (P : Platform) st args s h w1 r w2,
  get_index P (VECTOR_SEARCH_ENDPOINT_NAME st) (vs_index_fullname st) (world s) = (Ret h, w1) ->
  similarity_search P h args w1 = (r, w2) ->
  fst (query P st args s) =
    match r with
    | Ret rows => Returned rows
    | Exc e => Raised e
    end.
Proof.
  intros P st args s h w1 r w2 Hget Hsearch.
  unfold query, bind, invoke. rewrite Hget. cbn [world]. rewrite Hsearch.
  now destruct r.
Qed.

(** Both queries ask for five results, for the same text, which has no
    question mark. *)
Lemma queries_ask_for_five :
  SearchArgs.num_results ann_args = 5 /\ SearchArgs.num_results hybrid_args = 5
  /\ SearchArgs.query_text ann_args = SearchArgs.query_text hybrid_args
  /\ str_in "?" (SearchArgs.query_text ann_args) = false.
Proof. repeat split. Qed.

(** * Further properties of the notebook *)

(** ** The polling loop, turn by turn *)

Section PollingTurns.

Variable P : Platform.
Variable h : IndexHandle.

(** After [n] turns that found the index not ONLINE, the loop is where it
    would be if it started in the world they left, with what they added to
    the trace and printed. *)
Lemma wait_after_waits : forall n w w',
  waits P h n w w' ->
  forall fuel tr out,
    wait_until_online P (n + fuel) h (mkRun w tr out) =
    wait_until_online P fuel h
      (mkRun w' (tr ++ waits_trace h n) (out ++ repeat waiting_line n)).
Proof.
  induction 1 as [w | n w w1 w' ds Hd Hoff Hrest IH]; intros fuel tr out.
  - cbn. now rewrite !app_nil_r.
  - cbn [Nat.add].
    rewrite (wait_not_online P h (n + fuel) (mkRun w tr out) ds w1 Hd Hoff).
    cbn [world trace stdout]. rewrite IH. cbn [waits_trace repeat].
    now rewrite <- !app_assoc.
Qed.

(** A poll that finds the index ONLINE after [n] turns that did not. *)
Lemma waits_then_online : forall n w w1 w' ds,
  waits P h n w w1 ->
  describe P h w1 = (Ret (reports ds), w') ->
  startswith ds "ONLINE" = true ->
  polls P h n w w'.
Proof.
  induction 1 as [w | n w w0 w1 ds0 Hd0 Hoff Hrest IH]; intros Hd Hon.
  - exact (polls_online P h w w' ds Hd Hon).
  - exact (polls_wait P h n w w0 w' ds0 Hd0 Hoff (IH Hd Hon)).
Qed.

Lemma waits_trace_snoc : forall n,
  (waits_trace h n ++ [returned (CDescribe h)])%list = poll_trace h n.
Proof. induction n as [|n IH]; cbn; [reflexivity | now rewrite IH]. Qed.

(** Whatever the loop comes to, it got there by some number [n] of turns
    that found the index not ONLINE, and then: it returned after a poll
    that found it ONLINE; or it raised what [describe()] raised; or it
    raised the AttributeError of an answer without a state; or the fuel was
    used up by the [n] turns. *)
Lemma wait_shape : forall fuel s o s',
  wait_until_online P fuel h s = (o, s') ->
  exists n w1,
    (n <= fuel)%nat /\
    waits P h n (world s) w1 /\
    stdout s' = (stdout s ++ repeat waiting_line n)%list /\
    match o with
    | Returned _ =>
        (n < fuel)%nat /\
        (exists ds, describe P h w1 = (Ret (reports ds), world s')
                    /\ startswith ds "ONLINE" = true) /\
        trace s' = (trace s ++ waits_trace h n ++ [returned (CDescribe h)])%list
    | Raised e =>
        (n < fuel)%nat /\
        ((describe P h w1 = (Exc e, world s') /\
          trace s' = (trace s ++ waits_trace h n ++ [raised (CDescribe h) e])%list)
         \/ (exists d, describe P h w1 = (Ret d, world s') /\ missing_state d = Some e /\
             trace s' = (trace s ++ waits_trace h n ++ [returned (CDescribe h)])%list))
    | Running =>
        n = fuel /\ world s' = w1 /\ trace s' = (trace s ++ waits_trace h n)%list
    end.
Proof.
  induction fuel as [|fuel IH]; intros s o s' H.
  - inversion H; subst. exists O, (world s'). cbn. rewrite !app_nil_r.
    repeat split; auto. constructor.
  - rewrite wait_turn in H.
    destruct (describe P h (world s)) as [[d|e] w1] eqn:Hd.
    + cbn zeta in H. destruct d as [[[[ds|]]|]]; cbn [status detailed_state] in H.
      * destruct (startswith ds "ONLINE") eqn:Hon.
        -- inversion H; subst. exists O, (world s). cbn. rewrite app_nil_r.
           repeat split; try lia; [constructor | now exists ds].
        -- destruct (IH _ _ _ H) as (n & w2 & Hle & Hwaits & Hout & Hcase).
           cbn [world trace stdout] in *.
           exists (S n), w2. split; [lia|]. split.
           { exact (waits_more P h n (world s) w1 w2 ds Hd Hon Hwaits). }
           split; [rewrite Hout; cbn; now rewrite <- app_assoc|].
           destruct o as [[]|e|].
           ++ destruct Hcase as (Hlt & Hlast & Htr). split; [lia|]. split; [exact Hlast|].
              rewrite Htr. cbn. now rewrite <- !app_assoc.
           ++ destruct Hcase as (Hlt & Hlast). split; [lia|].
              destruct Hlast as [[Hl Htr] | (d & Hl & Hm & Htr)]; [left | right].
              ** split; [exact Hl|]. rewrite Htr. cbn. now rewrite <- !app_assoc.
              ** exists d. repeat split; auto. rewrite Htr. cbn. now rewrite <- !app_assoc.
           ++ destruct Hcase as (-> & Hw & Htr). repeat split; auto.
              rewrite Htr. cbn. now rewrite <- !app_assoc.
      * inversion H; subst. exists O, (world s). cbn. rewrite app_nil_r.
        repeat split; try lia; [constructor|]. right.
        exists (mkDescribe (Some (mkStatus None))). now repeat split.
      * inversion H; subst. exists O, (world s). cbn. rewrite app_nil_r.
        repeat split; try lia; [constructor|]. right.
        exists (mkDescribe None). now repeat split.
    + inversion H; subst. exists O, (world s). cbn. rewrite app_nil_r.
      repeat split; try lia; [constructor|]. now left.
Qed.

End PollingTurns.

(** X3.  The loop never returns on its own account: when it returns, some
    number [n] of polls found the index not ONLINE, each followed by a sleep
    of five seconds, and the next poll found a state that starts with
    ONLINE; the loop made exactly these calls and printed [n] lines. *)
Theorem wait_returns_only_when_online :
  forall (P : Platform) (h : IndexHandle) (fuel : nat) (s s' : Run (World P)),
    wait_until_online P fuel h s = (Returned tt, s') ->
    exists n : nat,
      (n < fuel)%nat
      /\ polls P h n (world s) (world s')
      /\ trace s' = (trace s ++ poll_trace h n)%list
      /\ stdout s' = (stdout s ++ repeat waiting_line n)%list.
Proof.
  intros P h fuel s s' H.
  destruct (wait_shape P h fuel s _ _ H)
    as (n & w1 & _ & Hwaits & Hout & Hlt & (ds & Hd & Hon) & Htr).
  exists n. split; [exact Hlt|]. split.
  - exact (waits_then_online P h n (world s) w1 (world s') ds Hwaits Hd Hon).
  - split; [|exact Hout]. now rewrite Htr, waits_trace_snoc.
Qed.

(** On the simulated platform, a new index: the loop returns at the third
    poll, and the two polls before it read PROVISIONING and SYNCING. *)
Lemma wait_returns_only_when_online_witness :
  exists n : nat,
    (n < 3)%nat
    /\ polls Sim.platform SimWorlds.handle n
         (world (start (SimWorlds.with_index Sim.PROVISIONING true 0)))
         (world (mkRun (SimWorlds.with_index Sim.ONLINE true 10)
                   (poll_trace SimWorlds.handle 2) (repeat waiting_line 2)))
    /\ trace (mkRun (SimWorlds.with_index Sim.ONLINE true 10)
                (poll_trace SimWorlds.handle 2) (repeat waiting_line 2)) =
         (trace (start (SimWorlds.with_index Sim.PROVISIONING true 0))
            ++ poll_trace SimWorlds.handle n)%list
    /\ stdout (mkRun (SimWorlds.with_index Sim.ONLINE true 10)
                 (poll_trace SimWorlds.handle 2) (repeat waiting_line 2)) =
         (stdout (start (SimWorlds.with_index Sim.PROVISIONING true 0))
            ++ repeat waiting_line n)%list.
Proof.
  apply (wait_returns_only_when_online Sim.platform SimWorlds.handle 3
           (start (SimWorlds.with_index Sim.PROVISIONING true 0))).
  vm_compute. reflexivity.
Defined.

(** X4.  In every outcome of the loop, also when it raises and when it is
    still running, its calls alternate strictly: a poll, a sleep of five
    seconds, a poll, and so on; it prints one line per sleep and nothing
    else.  The trace ends with the poll that found the index ONLINE when the
    loop returns; with the poll that raised, or with a poll whose answer had
    no status or no state, when it raises; and with a sleep, all turns used,
    when it is still running. *)
Theorem wait_calls_alternate :
  forall (P : Platform) (h : IndexHandle) (fuel : nat) (s : Run (World P)),
    exists (n : nat) (last : list Event),
      (n <= fuel)%nat
      /\ trace (snd (wait_until_online P fuel h s)) =
           (trace s ++ waits_trace h n ++ last)%list
      /\ stdout (snd (wait_until_online P fuel h s)) =
           (stdout s ++ repeat waiting_line n)%list
      /\ match fst (wait_until_online P fuel h s) with
         | Returned _ => last = [returned (CDescribe h)]
         | Raised e =>
             last = [raised (CDescribe h) e]
             \/ (last = [returned (CDescribe h)]
                 /\ (e = AttributeError "get" \/ e = AttributeError "startswith"))
         | Running => n = fuel /\ last = []
         end.
Proof.
  intros P h fuel s.
  destruct (wait_until_online P fuel h s) as [o s'] eqn:H. cbn [fst snd].
  destruct (wait_shape P h fuel s _ _ H) as (n & w1 & Hle & _ & Hout & Hcase).
  exists n. destruct o as [[]|e|].
  - destruct Hcase as (_ & _ & Htr). now exists [returned (CDescribe h)].
  - destruct Hcase as (_ & [[_ Htr] | (d & _ & Hm & Htr)]).
    + exists [raised (CDescribe h) e]. repeat split; auto.
    + exists [returned (CDescribe h)]. repeat split; auto. right. split; [reflexivity|].
      unfold missing_state in Hm. destruct (status d) as [sd|]; [|inversion Hm; auto].
      destruct (detailed_state sd); inversion Hm; auto.
  - destruct Hcase as (-> & _ & Htr). exists []. rewrite app_nil_r. repeat split; auto.
Qed.

(** ** Failures of the polling inside the [try] statement *)

Section PollingFailures.

Variable P : Platform.
Variable st : Settings.

(** The [try] statement of the index cell once the index is created: the
    loop decides. *)
Lemma try_create_index_polled : forall fuel s h w1,
  create_delta_sync_index P (index_args st) (world s) = (Ret h, w1) ->
  try_create_index P fuel st s =
    match wait_until_online P fuel h
            (mkRun w1 (trace s ++ [returned (CCreateDeltaSyncIndex (index_args st))])
               (stdout s)) with
    | (Returned _, s2) =>
        (Returned tt, mkRun (world s2) (trace s2) (stdout s2 ++ [index_ready_line st]))
    | (Raised e, s2) => index_handler P st e s2
    | (Running, s2) => (Running, s2)
    end.
Proof.
  intros fuel s h w1 Hcreate.
  rewrite (try_create_index_created P fuel st s h w1 Hcreate).
  unfold try_except, bind.
  destruct (wait_until_online P fuel h _) as [[[]|e|] s2]; reflexivity.
Qed.

(** The turn after [n] turns that found the index not ONLINE. *)
Lemma wait_last_turn : forall h n w w2 fuel tr out,
  waits P h n w w2 ->
  (n < fuel)%nat ->
  wait_until_online P fuel h (mkRun w tr out) =
    wait_until_online P (S (fuel - S n)) h
      (mkRun w2 (tr ++ waits_trace h n) (out ++ repeat waiting_line n)).
Proof.
  intros h n w w2 fuel tr out Hwaits Hlt.
  replace fuel with (n + S (fuel - S n))%nat at 1 by lia.
  exact (wait_after_waits P h n w w2 Hwaits (S (fuel - S n)) tr out).
Qed.

End PollingFailures.

(** The AttributeError of a missing status or state is never absorbed. *)
Lemma missing_state_not_absorbed : forall d e,
  missing_state d = Some e -> index_handler_absorbs (exc_str e) = false.
Proof.
  intros d e H. unfold missing_state in H.
  destruct (status d) as [sd|]; [|inversion H; reflexivity].
  destruct (detailed_state sd); inversion H; reflexivity.
Qed.

(** X5.  A [describe()] answer without a status, or with a status without
    a detailed state, makes the index cell fail: after the index was created
    and [n] polls found it not ONLINE, such an answer raises the
    AttributeError of calling [.get] or [.startswith] on [None], the
    handler does not absorb it, and the [try] statement raises it; neither
    the ready line nor the already-exists line is printed. *)
Theorem describe_without_state_fails_index_cell :
  forall (P : Platform) (fuel : nat) (st : Settings) (s : Run (World P))
         (h : IndexHandle) (w1 : World P) (n : nat) (w2 : World P)
         (d : DescribeDict) (w3 : World P) (e : PyExc),
    create_delta_sync_index P (index_args st) (world s) = (Ret h, w1) ->
    waits P h n w1 w2 ->
    describe P h w2 = (Ret d, w3) ->
    missing_state d = Some e ->
    (n < fuel)%nat ->
    try_create_index P fuel st s =
      (Raised e,
       mkRun w3
         (trace s ++ returned (CCreateDeltaSyncIndex (index_args st))
            :: waits_trace h n ++ [returned (CDescribe h)])
         (stdout s ++ repeat waiting_line n)).
Proof.
  intros P fuel st s h w1 n w2 d w3 e Hcreate Hwaits Hd Hmissing Hlt.
  rewrite (try_create_index_polled P st fuel s h w1 Hcreate).
  rewrite (wait_last_turn P h n w1 w2 fuel _ _ Hwaits Hlt).
  rewrite wait_turn. cbn [world trace stdout]. rewrite Hd. cbn zeta.
  pose proof (missing_state_not_absorbed d e Hmissing) as Hno.
  unfold missing_state in Hmissing.
  destruct (status d) as [sd|].
  - destruct (detailed_state sd) as [ds|]; [discriminate Hmissing|].
    injection Hmissing as <-.
    rewrite index_handler_run, Hno. cbn. now rewrite <- !app_assoc.
  - injection Hmissing as <-.
    rewrite index_handler_run, Hno. cbn. now rewrite <- !app_assoc.
Qed.

(** On the platform whose [describe()] answers without a status: the
    index is created, the first poll fails on [.get]. *)
Lemma describe_without_state_witness :
  try_create_index Sim.platform_without_status 3 Sim.settings
    (start SimWorlds.with_table) =
    (Raised (AttributeError "get"),
     mkRun (SimWorlds.created Sim.PROVISIONING)
       ([] ++ returned (CCreateDeltaSyncIndex (index_args Sim.settings))
           :: waits_trace SimWorlds.handle 0 ++ [returned (CDescribe SimWorlds.handle)])
       ([] ++ repeat waiting_line 0)).
Proof.
  apply (describe_without_state_fails_index_cell Sim.platform_without_status 3
           Sim.settings (start SimWorlds.with_table) SimWorlds.handle
           (SimWorlds.created Sim.PROVISIONING) 0 (SimWorlds.created Sim.PROVISIONING)
           (mkDescribe None) (SimWorlds.created Sim.PROVISIONING)
           (AttributeError "get")).
  - vm_compute; reflexivity.
  - constructor.
  - reflexivity.
  - reflexivity.
  - lia.
Defined.

(** X6.  An exception of [describe()] during the polling goes to the same
    handler as an exception of the creation: after the index was created
    and [n] polls found it not ONLINE, a poll that raises [e] ends the [try]
    statement.  When the message of [e] carries RESOURCE_ALREADY_EXISTS or
    "status_code 409", the statement returns and prints that the index
    already exists, although this run created it, and the ready line is not
    printed; otherwise [e] is raised again. *)
Theorem polling_error_goes_to_creation_handler :
  forall (P : Platform) (fuel : nat) (st : Settings) (s : Run (World P))
         (h : IndexHandle) (w1 : World P) (n : nat) (w2 : World P)
         (e : PyExc) (w3 : World P),
    create_delta_sync_index P (index_args st) (world s) = (Ret h, w1) ->
    waits P h n w1 w2 ->
    describe P h w2 = (Exc e, w3) ->
    (n < fuel)%nat ->
    try_create_index P fuel st s =
      if index_handler_absorbs (exc_str e)
      then (Returned tt,
            mkRun w3
              (trace s ++ returned (CCreateDeltaSyncIndex (index_args st))
                 :: waits_trace h n ++ [raised (CDescribe h) e])
              (stdout s ++ repeat waiting_line n ++ [index_exists_line st]))
      else (Raised e,
            mkRun w3
              (trace s ++ returned (CCreateDeltaSyncIndex (index_args st))
                 :: waits_trace h n ++ [raised (CDescribe h) e])
              (stdout s ++ repeat waiting_line n)).
Proof.
  intros P fuel st s h w1 n w2 e w3 Hcreate Hwaits Hd Hlt.
  rewrite (try_create_index_polled P st fuel s h w1 Hcreate).
  rewrite (wait_last_turn P h n w1 w2 fuel _ _ Hwaits Hlt).
  rewrite wait_turn. cbn [world trace stdout]. rewrite Hd.
  rewrite index_handler_run. cbn [world trace stdout].
  destruct (index_handler_absorbs (exc_str e)); now rewrite <- !app_assoc.
Qed.

(** On the platform whose [describe()] is refused with a 409: the index is
    created, the first poll is refused, and the cell reports that the index
    already exists. *)
Lemma polling_error_witness :
  try_create_index Sim.platform_busy_describe 3 Sim.settings
    (start SimWorlds.with_table) =
    (Returned tt,
     mkRun (SimWorlds.created Sim.PROVISIONING)
       ([] ++ returned (CCreateDeltaSyncIndex (index_args Sim.settings))
           :: waits_trace SimWorlds.handle 0
           ++ [raised (CDescribe SimWorlds.handle) Sim.conflict])
       ([] ++ repeat waiting_line 0 ++ [index_exists_line Sim.settings])).
Proof.
  apply (polling_error_goes_to_creation_handler Sim.platform_busy_describe 3
           Sim.settings (start SimWorlds.with_table) SimWorlds.handle
           (SimWorlds.created Sim.PROVISIONING) 0 (SimWorlds.created Sim.PROVISIONING)
           Sim.conflict (SimWorlds.created Sim.PROVISIONING)).
  - vm_compute; reflexivity.
  - constructor.
  - reflexivity.
  - lia.
Defined.

(** ** The run stops at the first call that fails *)

Lemma passes_returned : forall c, passes (returned c) = true.
Proof. intros c. now destruct c. Qed.

Section StopsAt.

Context {W : Type}.
Variable K : Call -> bool.

Lemma stops_at_ret : forall {A} (a : A), stops_at K (@ret W A a).
Proof.
  intros A a s o s' H. inversion H; subst. exists [], []. rewrite !app_nil_r. auto.
Qed.

Lemma stops_at_raise : forall {A} e, stops_at K (@raise W A e).
Proof.
  intros A e s o s' H. inversion H; subst. exists [], []. rewrite !app_nil_r. auto.
Qed.

Lemma stops_at_out_of_fuel : forall {A}, stops_at K (@out_of_fuel W A).
Proof.
  intros A s o s' H. inversion H; subst. exists [], []. rewrite !app_nil_r. auto.
Qed.

Lemma stops_at_print : forall line, stops_at K (@print W line).
Proof.
  intros line s o s' H. inversion H; subst. exists [], []. cbn. rewrite !app_nil_r. auto.
Qed.

Lemma stops_at_invoke : forall {A} c (op : W -> Reply A * W),
  K c = true -> stops_at K (invoke c op).
Proof.
  intros A c op HK s o s' H. unfold invoke in H.
  destruct (op (world s)) as [[a|e] w']; inversion H; subst; cbn.
  - exists [returned c], []. cbn [app forallb]. rewrite passes_returned. auto.
  - exists [], [raised c e]. repeat split; auto. right. now exists c, e.
Qed.

(** A call that cannot raise may be of any kind. *)
Lemma stops_at_total : forall c (f : W -> W),
  stops_at K (invoke c (fun w => (Ret tt, f w))).
Proof.
  intros c f s o s' H. inversion H; subst; cbn.
  exists [returned c], []. cbn [app forallb]. rewrite passes_returned. auto.
Qed.

Lemma stops_at_bind : forall {A B} (m : M W A) (k : A -> M W B),
  stops_at K m -> (forall a, stops_at K (k a)) -> stops_at K (bind m k).
Proof.
  intros A B m k Hm Hk s o s' H.
  apply bind_cases in H. destruct H as (o1 & s1 & Hms & H).
  destruct (Hm _ _ _ Hms) as (b1 & l1 & E1 & F1 & L1).
  destruct o1 as [a|e|].
  - destruct L1 as [-> | (c & e & _ & _ & Ho)]; [|discriminate Ho].
    destruct (Hk a _ _ _ H) as (b2 & l2 & E2 & F2 & L2).
    exists (b1 ++ b2)%list, l2. split; [|split; [|exact L2]].
    + rewrite E2, E1, app_nil_r. now rewrite <- !app_assoc.
    + now rewrite forallb_app, F1, F2.
  - destruct H as [-> ->]. exists b1, l1. repeat split; auto.
    destruct L1 as [-> | (c & e0 & -> & Hc & He)]; [now left | right].
    injection He as <-. now exists c, e.
  - destruct H as [-> ->]. exists b1, l1. repeat split; auto.
    destruct L1 as [-> | (c & e0 & _ & _ & He)]; [now left | discriminate He].
Qed.

End StopsAt.

Lemma stops_at_weaken : forall {W A} (K K' : Call -> bool) (m : M W A),
  (forall c, K c = true -> K' c = true) -> stops_at K m -> stops_at K' m.
Proof.
  intros W A K K' m HK Hm s o s' H.
  destruct (Hm _ _ _ H) as (b & l & E & F & [-> | (c & e & -> & Hc & Ho)]).
  - exists b, []. auto.
  - exists b, [(c, Some e)]. repeat split; auto. right. exists c, e. auto.
Qed.

Section NotebookStops.

Variable P : Platform.
Variable config : Config.

Lemma config_get_stops : forall K key, stops_at K (config_get P config key).
Proof.
  intros K key. unfold config_get.
  destruct (config key); [apply stops_at_ret | apply stops_at_raise].
Qed.

Lemma wait_stops : forall fuel h, stops_at in_index_try (wait_until_online P fuel h).
Proof.
  induction fuel as [|fuel IH]; intros h; cbn [wait_until_online].
  - apply stops_at_out_of_fuel.
  - apply stops_at_bind; [now apply stops_at_invoke|]. intros d.
    apply stops_at_bind.
    + unfold is_online. destruct (status d) as [sd|]; [|apply stops_at_raise].
      destruct (detailed_state sd); [apply stops_at_ret | apply stops_at_raise].
    + intros [|]; [apply stops_at_ret|].
      apply stops_at_bind; [apply stops_at_print|]. intros _.
      apply stops_at_bind; [apply stops_at_total | intros _; apply IH].
Qed.

(** An exception that a [try] statement absorbs becomes an event that
    passes; one that it raises again stays the last event. *)
Lemma try_create_endpoint_stops : forall st, stops_at any_call (try_create_endpoint P st).
Proof.
  intros st s o s' H.
  unfold try_create_endpoint, try_except, create_endpoint, invoke in H.
  destruct (create_endpoint_and_wait P _ _ (world s)) as [[[]|e] w1].
  - inversion H; subst. cbn. exists [returned (CCreateEndpointAndWait
                                                 (VECTOR_SEARCH_ENDPOINT_NAME st) "STANDARD")], [].
    cbn [app forallb]. rewrite passes_returned. auto.
  - rewrite endpoint_handler_run in H.
    destruct (endpoint_handler_absorbs (exc_str e)) eqn:Habs; inversion H; subst; cbn.
    + exists [raised (CCreateEndpointAndWait (VECTOR_SEARCH_ENDPOINT_NAME st) "STANDARD") e], [].
      cbn. rewrite Habs. auto.
    + exists [], [raised (CCreateEndpointAndWait (VECTOR_SEARCH_ENDPOINT_NAME st) "STANDARD") e].
      repeat split; auto. right. now eexists _, e.
Qed.

Lemma try_create_index_stops : forall fuel st,
  stops_at any_call (try_create_index P fuel st).
Proof.
  intros fuel st s o s' H.
  assert (Hbody : stops_at in_index_try (create_index_and_wait P fuel st)).
  { unfold create_index_and_wait.
    apply stops_at_bind; [now apply stops_at_invoke|]. intros h.
    apply stops_at_bind; [apply wait_stops | intros _; apply stops_at_print]. }
  unfold try_create_index, try_except in H.
  destruct (create_index_and_wait P fuel st s) as [[[]|e|] s1] eqn:Hrun.
  - inversion H; subst.
    exact (stops_at_weaken in_index_try any_call _ (fun _ _ => eq_refl) Hbody _ _ _ Hrun).
  - destruct (Hbody _ _ _ Hrun) as (b & l & E & F & L).
    rewrite index_handler_run in H.
    destruct (index_handler_absorbs (exc_str e)) eqn:Habs; inversion H; subst; cbn.
    + destruct L as [-> | (c & e' & -> & Hc & He)].
      * exists b, []. auto.
      * injection He as <-. exists (b ++ [(c, Some e)])%list, [].
        rewrite app_nil_r. split; [exact E|]. split; [|auto].
        rewrite forallb_app, F. cbn.
        destruct c; try discriminate Hc; cbn; now rewrite Habs.
    + destruct L as [-> | (c & e' & -> & Hc & He)].
      * exists b, []. auto.
      * exists b, [(c, Some e')]. repeat split; auto. right. now exists c, e'.
  - inversion H; subst.
    exact (stops_at_weaken in_index_try any_call _ (fun _ _ => eq_refl) Hbody _ _ _ Hrun).
Qed.

Lemma query_stops : forall st args, stops_at any_call (query P st args).
Proof.
  intros st args. unfold query.
  apply stops_at_bind; [now apply stops_at_invoke|].
  intros h. now apply stops_at_invoke.
Qed.

Lemma notebook_stops : forall fuel, stops_at any_call (notebook P config fuel).
Proof.
  intros fuel. unfold notebook, prelude, cell_update_libraries, cell_setup_config,
    cell_create_dataset, cell_select_all, cell_create_endpoint, cell_init_client,
    cell_create_index, cell_ann_search, cell_hybrid_search.
  repeat first
    [ apply stops_at_bind
    | apply config_get_stops
    | apply try_create_endpoint_stops
    | apply try_create_index_stops
    | apply query_stops
    | apply stops_at_ret
    | apply stops_at_print
    | apply stops_at_invoke; reflexivity
    | intro ].
Qed.

End NotebookStops.

(** X7.  A run stops at the first call that fails.  In the trace of every
    run, each event but perhaps the last is a call that returned or a call
    inside a [try] statement whose exception the handler absorbed
    ([create_endpoint_and_wait] in the endpoint cell, [create_delta_sync_index]
    or [describe()] in the index cell).  If the last event is another raised
    call, the run raises exactly the exception of that call; in particular
    a run that returns made no failing call other than absorbed ones. *)
Theorem notebook_stops_at_first_failure :
  forall (P : Platform) (config : Config) (fuel : nat) (w : World P),
    exists before last : list Event,
      trace (snd (notebook P config fuel (start w))) = (before ++ last)%list
      /\ forallb passes before = true
      /\ (last = []
          \/ exists c e,
               last = [(c, Some e)]
               /\ fst (notebook P config fuel (start w)) = Raised e).
Proof.
  intros P config fuel w.
  destruct (notebook P config fuel (start w)) as [o s'] eqn:H. cbn [fst snd].
  destruct (notebook_stops P config fuel _ _ _ H) as (b & l & E & F & L).
  exists b, l. repeat split; auto.
  destruct L as [-> | (c & e & -> & _ & ->)]; [now left | right; now exists c, e].
Qed.

(** ** A configuration without one of its keys *)

(** X2.  When [config] lacks one of the five keys, the run ends in the
    configuration cell with the KeyError of the first key that is missing,
    in the order in which the cell reads them.  Only the library cell has
    run by then: the table is not written, no endpoint and no index is
    created, and nothing is printed. *)
Theorem missing_config_key_stops_the_run :
  forall (P : Platform) (config : Config) (fuel : nat) (w w1 w2 : World P) (key : string),
    pip_install P pip_args w = (Ret tt, w1) ->
    restartPython P w1 = (Ret tt, w2) ->
    first_missing config = Some key ->
    notebook P config fuel (start w) =
      (Raised (KeyError key),
       mkRun w2 [returned (CPipInstall pip_args); returned CRestartPython] []).
Proof.
  intros P config fuel w w1 w2 key Hpip Hrestart Hmissing.
  unfold notebook, prelude, cell_update_libraries, bind, invoke.
  cbn [start world trace stdout]. fold pip_args. rewrite Hpip.
  cbn [world trace stdout]. rewrite Hrestart. cbn [world trace stdout app].
  unfold cell_setup_config, config_get, bind, ret, raise.
  unfold first_missing, config_keys in Hmissing. cbn [find] in Hmissing.
  destruct (config "catalog"); [|now injection Hmissing as <-].
  destruct (config "database"); [|now injection Hmissing as <-].
  destruct (config "vector_search_index"); [|now injection Hmissing as <-].
  destruct (config "VECTOR_SEARCH_ENDPOINT_NAME"); [|now injection Hmissing as <-].
  destruct (config "embedding_model_endpoint_name"); [discriminate Hmissing|].
  now injection Hmissing as <-.
Qed.

(** Without the endpoint name, the fourth key read, the run ends there. *)
Lemma missing_config_key_witness :
  notebook Sim.platform Sim.config_without_endpoint 3 (start Sim.empty_world) =
    (Raised (KeyError "VECTOR_SEARCH_ENDPOINT_NAME"),
     mkRun Sim.empty_world [returned (CPipInstall pip_args); returned CRestartPython] []).
Proof.
  apply (missing_config_key_stops_the_run Sim.platform Sim.config_without_endpoint 3
           Sim.empty_world Sim.empty_world Sim.empty_world "VECTOR_SEARCH_ENDPOINT_NAME");
    reflexivity.
Defined.

(** ** The two queries in a run *)

Section QueriesInARun.

Variable P : Platform.
Variable config : Config.

Lemma wait_emits_no_query : forall fuel h,
  only_emits not_query (wait_until_online P fuel h).
Proof.
  induction fuel as [|fuel IH]; intros h; cbn [wait_until_online].
  - apply only_emits_out_of_fuel.
  - apply only_emits_bind; [now apply only_emits_invoke|]. intros d.
    apply only_emits_bind.
    + unfold is_online. destruct (status d) as [sd|]; [|apply only_emits_raise].
      destruct (detailed_state sd); [apply only_emits_ret | apply only_emits_raise].
    + intros [|]; [apply only_emits_ret|].
      apply only_emits_bind; [apply only_emits_print|]. intros _.
      apply only_emits_bind; [now apply only_emits_invoke | intros _; apply IH].
Qed.

Lemma endpoint_handler_emits : forall Q st e, only_emits Q (endpoint_handler P st e).
Proof.
  intros Q st e. unfold endpoint_handler.
  destruct (endpoint_handler_absorbs (exc_str e));
    [apply only_emits_print | apply only_emits_raise].
Qed.

Lemma prelude_emits_no_query : only_emits not_query (prelude P config).
Proof.
  unfold prelude, cell_update_libraries, cell_setup_config, cell_create_dataset,
    cell_select_all, cell_create_endpoint, cell_init_client, try_create_endpoint,
    create_endpoint, config_get.
  repeat first
    [ apply only_emits_bind
    | apply only_emits_try
    | apply only_emits_ret
    | apply endpoint_handler_emits
    | apply only_emits_invoke; [reflexivity | intros; reflexivity]
    | match goal with |- only_emits _ (match ?x with _ => _ end) => destruct x end
    | apply only_emits_raise
    | match goal with |- forall _, _ => intro end ].
Qed.

Lemma cell_create_index_emits_no_query : forall fuel st,
  only_emits not_query (cell_create_index P fuel st).
Proof.
  intros fuel st. unfold cell_create_index, try_create_index, create_index_and_wait.
  apply only_emits_bind; [now apply only_emits_invoke|]. intros _.
  apply only_emits_bind; [apply only_emits_print|]. intros _.
  apply only_emits_try; [|intros e; apply index_handler_emits].
  apply only_emits_bind; [now apply only_emits_invoke|]. intros h.
  apply only_emits_bind; [apply wait_emits_no_query | intros _; apply only_emits_print].
Qed.

(** An index cell that returns has called [create_delta_sync_index], and
    that call returned or raised an exception that the handler absorbed. *)
Lemma cell_create_index_returned : forall fuel st s s',
  cell_create_index P fuel st s = (Returned tt, s') ->
  exists added y,
    trace s' = (trace s ++ added)%list /\
    In (CCreateDeltaSyncIndex (index_args st), y) added /\
    passes (CCreateDeltaSyncIndex (index_args st), y) = true.
Proof.
  intros fuel st s s' H.
  destruct (spark_sql P (alter_query st) (world s)) as [[df|e] w0] eqn:Halter.
  2:{ unfold cell_create_index in H. unfold bind at 1, invoke in H.
      rewrite Halter in H. discriminate H. }
  rewrite (cell_create_index_altered P fuel st s df w0 Halter) in H.
  set (s0 := mkRun w0 (trace s ++ [returned (CSparkSql (alter_query st))])
               (stdout s ++ [creating_line st])) in H.
  destruct (create_delta_sync_index P (index_args st) w0) as [[h|e] w1] eqn:Hcreate.
  - rewrite (try_create_index_created P fuel st s0 h w1 Hcreate) in H.
    assert (Hrest : only_emits not_query
                      (try_except (wait_until_online P fuel h;; print (index_ready_line st))
                         (index_handler P st))).
    { apply only_emits_try; [|intros e; apply index_handler_emits].
      apply only_emits_bind; [apply wait_emits_no_query | intros _; apply only_emits_print]. }
    destruct (Hrest _ _ _ H) as (late & Hlate & _). subst s0. cbn [trace] in Hlate.
    exists (returned (CSparkSql (alter_query st))
              :: returned (CCreateDeltaSyncIndex (index_args st)) :: late), None.
    split; [rewrite Hlate; now rewrite <- !app_assoc|].
    split; [right; now left | reflexivity].
  - rewrite (try_create_index_rejected P fuel st s0 e w1 Hcreate) in H.
    destruct (index_handler_absorbs (exc_str e)) eqn:Habs; [|discriminate H].
    inversion H; subst. cbn [trace].
    exists [returned (CSparkSql (alter_query st));
            raised (CCreateDeltaSyncIndex (index_args st)) e], (Some e).
    split; [now rewrite <- app_assoc|]. split; [right; now left | exact Habs].
Qed.

(** The two query cells, whatever they come to. *)
Lemma queries_added : forall st s o s',
  queries P st s = (o, s') ->
  exists post,
    trace s' = (trace s ++ post)%list /\
    queries_replies P (VECTOR_SEARCH_ENDPOINT_NAME st) (vs_index_fullname st)
      (world s) post.
Proof.
  intros st s o s' H.
  unfold queries, cell_ann_search, cell_hybrid_search, query, bind, invoke, ret in H.
  unfold queries_replies.
  destruct (get_index P _ _ (world s)) as [[h1|e] w1];
    cbn [world trace stdout] in H; [|run_done H; reflexivity].
  destruct (similarity_search P h1 ann_args w1) as [[ann|e] w2];
    cbn [world trace stdout] in H; [|run_done H; reflexivity].
  destruct (get_index P _ _ w2) as [[h2|e] w3];
    cbn [world trace stdout] in H; [|run_done H; reflexivity].
  destruct (similarity_search P h2 hybrid_args w3) as [[hybrid|e] w4];
    cbn [world trace stdout] in H; run_done H; reflexivity.
Qed.

(** A run is the cells down to the index cell, then the two query cells. *)
Lemma notebook_then_queries : forall fuel s,
  notebook P config fuel s =
  bind (up_to_index_cell P config fuel) (fun st => queries P st) s.
Proof.
  intros fuel s. unfold notebook, up_to_index_cell, queries, bind, ret.
  destruct (prelude P config s) as [[st|e|] s1]; [|reflexivity|reflexivity].
  destruct (cell_create_index P fuel st s1) as [[[]|e|] s2]; reflexivity.
Qed.

Lemma up_to_index_cell_emits_no_query : forall fuel,
  only_emits not_query (up_to_index_cell P config fuel).
Proof.
  intros fuel. unfold up_to_index_cell.
  apply only_emits_bind; [apply prelude_emits_no_query|]. intros st.
  apply only_emits_bind; [apply cell_create_index_emits_no_query|]. intros _.
  apply only_emits_ret.
Qed.

(** When the cells down to the index cell return, the index cell has
    called [create_delta_sync_index], and that call returned or raised an
    exception that the handler absorbed. *)
Lemma up_to_index_cell_returned : forall fuel s st s2,
  up_to_index_cell P config fuel s = (Returned st, s2) ->
  exists y,
    In (CCreateDeltaSyncIndex (index_args st), y) (added_since s s2) /\
    passes (CCreateDeltaSyncIndex (index_args st), y) = true.
Proof.
  intros fuel s st s2 H. unfold up_to_index_cell in H.
  apply bind_cases in H. destruct H as (o1 & s1 & Hpre & H).
  destruct o1 as [st1|e|]; [|destruct H as [H _]; discriminate H
                            |destruct H as [H _]; discriminate H].
  apply bind_cases in H. destruct H as (o2 & s1' & Hcell & H).
  destruct o2 as [[]|e|]; [|destruct H as [H _]; discriminate H
                           |destruct H as [H _]; discriminate H].
  inversion H; subst; clear H.
  destruct (prelude_emits_no_query _ _ _ Hpre) as (added1 & E1 & _).
  destruct (cell_create_index_returned fuel st _ _ Hcell) as (added2 & y & E2 & Hin & Hy).
  exists y. split; [|exact Hy].
  rewrite (added_since_app s s2 (added1 ++ added2)%list).
  - apply in_or_app. now right.
  - now rewrite E2, E1, <- app_assoc.
Qed.

End QueriesInARun.

(** X8.  The cells down to the index cell make no [get_index] and no
    [similarity_search].  When they do not all return, the run ends with
    them.  When they return, the index cell has called
    [create_delta_sync_index], and that call returned or raised an absorbed
    error; the query cells then start in the world the index cell left and
    address the endpoint and the index named in that call.  They make at
    most two searches: the ANN one, then the hybrid one, each on the handle
    that the [get_index] right before it returned, both for five results
    with the same text and columns; the hybrid search is made only after the
    ANN search has returned. *)
Theorem queries_follow_index_creation :
  forall (P : Platform) (config : Config) (fuel : nat) (w : World P),
    forallb not_query (trace (snd (up_to_index_cell P config fuel (start w)))) = true
    /\ match up_to_index_cell P config fuel (start w) with
       | (Returned st, s2) =>
           (exists y,
              In (CCreateDeltaSyncIndex (index_args st), y) (trace s2)
              /\ passes (CCreateDeltaSyncIndex (index_args st), y) = true)
           /\ exists post,
                trace (snd (notebook P config fuel (start w))) = (trace s2 ++ post)%list
                /\ queries_replies P
                     (IndexArgs.endpoint_name (index_args st))
                     (IndexArgs.index_name (index_args st))
                     (world s2) post
       | (Raised e, s2) => notebook P config fuel (start w) = (Raised e, s2)
       | (Running, s2) => notebook P config fuel (start w) = (Running, s2)
       end.
Proof.
  intros P config fuel w. split.
  - destruct (up_to_index_cell P config fuel (start w)) as [o s2] eqn:Hup.
    destruct (up_to_index_cell_emits_no_query P config fuel _ _ _ Hup) as (added & E & F).
    cbn [snd start trace app] in *. now rewrite E.
  - rewrite notebook_then_queries. unfold bind at 1 2 3.
    destruct (up_to_index_cell P config fuel (start w)) as [[st|e|] s2] eqn:Hup;
      [|reflexivity|reflexivity].
    split.
    + destruct (up_to_index_cell_returned P config fuel _ _ _ Hup) as (y & Hin & Hy).
      exists y. split; [|exact Hy].
      unfold added_since in Hin. exact Hin.
    + destruct (queries P st s2) as [o s'] eqn:Hq. cbn [snd].
      exact (queries_added P st _ _ _ Hq).
Qed.

(** ** The calls that lead to the creation of the index *)

Ltac run_step_eq H :=
  cbn [world trace stdout] in H;
  match type of H with
  | context [match ?x with _ => _ end] =>
      lazymatch x with
      | context [match _ with _ => _ end] => fail
      | _ => first [ destruct x as [[?a|?e] ?w] eqn:? | destruct x eqn:? ]
      end
  end.

Section PreludeReturned.

Variable P : Platform.
Variable config : Config.

(** When the cells above the index cell all succeed, they made these eight
    calls, in this order; the settings are the values of the configuration;
    and the endpoint either was created or exists already, as far as the
    handler can tell. *)
Lemma prelude_returned : forall s st s',
  prelude P config s = (Returned st, s') ->
  exists df x,
    trace s' =
      (trace s ++
         [ returned (CPipInstall pip_args);
           returned CRestartPython;
           save_event (source_table st);
           returned (CSparkSql (select_query st));
           returned (CDisplay df);
           returned (CVectorSearchClient false);
           (CCreateEndpointAndWait (VECTOR_SEARCH_ENDPOINT_NAME st) "STANDARD", x);
           returned (CVectorSearchClient true) ])%list
    /\ passes (CCreateEndpointAndWait (VECTOR_SEARCH_ENDPOINT_NAME st) "STANDARD", x) = true
    /\ config "catalog" = Some (CATALOG st)
    /\ config "database" = Some (SCHEMA st)
    /\ config "vector_search_index" = Some (VS_INDX st)
    /\ config "VECTOR_SEARCH_ENDPOINT_NAME" = Some (VECTOR_SEARCH_ENDPOINT_NAME st)
    /\ config "embedding_model_endpoint_name" = Some (embedding_model_endpoint_name st)
    /\ vs_index_fullname st = CATALOG st ++ "." ++ SCHEMA st ++ "." ++ VS_INDX st.
Proof.
  intros s st s' H.
  unfold prelude, cell_update_libraries, cell_setup_config, cell_create_dataset,
    cell_select_all, cell_create_endpoint, cell_init_client, try_create_endpoint,
    create_endpoint, endpoint_handler, config_get, try_except, bind, invoke,
    ret, raise, print in H.
  repeat run_step_eq H; cbn [world trace stdout] in H; try discriminate H;
    inversion H; subst; clear H; cbn [trace CATALOG SCHEMA VS_INDX
      VECTOR_SEARCH_ENDPOINT_NAME embedding_model_endpoint_name vs_index_fullname];
    rewrite <- ?app_assoc; cbn [app]; eexists; eexists;
    (split; [reflexivity|]); repeat split; auto.
Qed.

End PreludeReturned.

(** X9.  Whenever a run calls [create_delta_sync_index], the trace starts
    with the same nine calls, in this order: the library installation, the
    restart, the overwrite of the table with the dataset, the SELECT, its
    display, the first client, the creation of the endpoint, the second
    client and the ALTER TABLE statement.  All of them returned, except
    that the creation of the endpoint may have raised an error that its
    handler absorbed.  The index is created with the names of the
    configuration: on the endpoint [config['VECTOR_SEARCH_ENDPOINT_NAME']],
    under the name catalog.schema.vector_search_index, with the embedding
    model of the configuration.  The call is made once: no later event of
    the run is a creation of an index. *)
Theorem index_creation_follows_fixed_calls :
  forall (P : Platform) (config : Config) (fuel : nat) (w : World P)
         (a : IndexArgs.t) (y : option PyExc),
    In (CCreateDeltaSyncIndex a, y) (trace (snd (notebook P config fuel (start w)))) ->
    exists st df x late,
      trace (snd (notebook P config fuel (start w))) =
        ([ returned (CPipInstall pip_args);
           returned CRestartPython;
           save_event (IndexArgs.source_table_name a);
           returned (CSparkSql (select_query st));
           returned (CDisplay df);
           returned (CVectorSearchClient false);
           (CCreateEndpointAndWait (IndexArgs.endpoint_name a) "STANDARD", x);
           returned (CVectorSearchClient true);
           returned (CSparkSql (alter_query st));
           (CCreateDeltaSyncIndex a, y) ] ++ late)%list
      /\ passes (CCreateEndpointAndWait (IndexArgs.endpoint_name a) "STANDARD", x) = true
      /\ forallb not_create late = true
      /\ a = index_args st
      /\ config "VECTOR_SEARCH_ENDPOINT_NAME" = Some (IndexArgs.endpoint_name a)
      /\ config "embedding_model_endpoint_name"
         = Some (IndexArgs.embedding_model_endpoint_name a)
      /\ config "catalog" = Some (CATALOG st)
      /\ config "database" = Some (SCHEMA st)
      /\ config "vector_search_index" = Some (VS_INDX st)
      /\ IndexArgs.index_name a = CATALOG st ++ "." ++ SCHEMA st ++ "." ++ VS_INDX st
      /\ IndexArgs.source_table_name a
         = CATALOG st ++ "." ++ SCHEMA st ++ ".billing_faq_dataset".
Proof.
  intros P config fuel w a y Hin.
  destruct (notebook P config fuel (start w)) as [o s'] eqn:Hrun. cbn [snd] in *.
  unfold notebook in Hrun.
  apply bind_cases in Hrun. destruct Hrun as (o1 & s1 & Hpre & Hrun).
  destruct o1 as [st|e|].
  2,3: destruct Hrun as [_ ->];
       destruct (prelude_trace P config _ _ _ Hpre) as (added1 & E1 & No1 & _);
       rewrite E1 in Hin; now apply no_create_in in Hin.
  destruct (prelude_returned P config _ _ _ Hpre)
    as (df & x & E1 & Hx & Hc & Hd & Hv & He & Hm & Hname).
  cbn [start trace app] in E1.
  assert (No1 : forallb not_create (trace s1) = true) by (rewrite E1; reflexivity).
  apply bind_cases in Hrun. destruct Hrun as (o2 & s2 & Hcell & Hrun).
  destruct (cell_create_index_trace P fuel st _ _ _ Hcell) as (added2 & E2 & Hadded2).
  assert (Hrest : only_emits not_create
                    (ann <- cell_ann_search P st;;
                     hybrid <- cell_hybrid_search P st;;
                     ret (ann, hybrid))).
  { apply only_emits_bind; [apply query_emits_no_create|]. intros ann.
    apply only_emits_bind; [apply query_emits_no_create|]. intros hybrid.
    apply only_emits_ret. }
  assert (Hs' : exists added3,
             trace s' = (trace s1 ++ added2 ++ added3)%list /\
             forallb not_create added3 = true).
  { destruct o2 as [[]|e|].
    - destruct (Hrest _ _ _ Hrun) as (added3 & E3 & No3).
      exists added3. now rewrite E3, E2, <- app_assoc.
    - destruct Hrun as [_ ->]. exists []. now rewrite E2, app_nil_r.
    - destruct Hrun as [_ ->]. exists []. now rewrite E2, app_nil_r. }
  destruct Hs' as (added3 & E & No3). rewrite E in Hin |- *.
  rewrite !in_app_iff in Hin.
  destruct Hin as [Hin | [Hin | Hin]];
    [now apply no_create_in in Hin | | now apply no_create_in in Hin].
  destruct Hadded2 as [No2 | (y0 & late & -> & Nolate)];
    [now apply no_create_in in Hin|].
  destruct Hin as [Hin | [Hin | Hin]];
    [discriminate Hin | | now apply no_create_in in Hin].
  injection Hin as <- <-.
  exists st, df, x, (late ++ added3)%list.
  cbn [index_args IndexArgs.source_table_name IndexArgs.endpoint_name
         IndexArgs.index_name IndexArgs.embedding_model_endpoint_name].
  split; [rewrite E1; reflexivity|].
  split; [exact Hx|].
  split; [rewrite forallb_app; apply andb_true_intro; now split|].
  repeat split; auto.
Qed.

(** On the simulated platform, the first run from an empty world. *)
Lemma index_creation_follows_fixed_calls_witness :
  exists st df x late,
    trace (snd (notebook Sim.platform Sim.config 3 (start Sim.empty_world))) =
      ([ returned (CPipInstall pip_args);
         returned CRestartPython;
         save_event (IndexArgs.source_table_name (index_args Sim.settings));
         returned (CSparkSql (select_query st));
         returned (CDisplay df);
         returned (CVectorSearchClient false);
         (CCreateEndpointAndWait (IndexArgs.endpoint_name (index_args Sim.settings))
            "STANDARD", x);
         returned (CVectorSearchClient true);
         returned (CSparkSql (alter_query st));
         (CCreateDeltaSyncIndex (index_args Sim.settings), None) ] ++ late)%list
    /\ passes (CCreateEndpointAndWait (IndexArgs.endpoint_name (index_args Sim.settings))
                 "STANDARD", x) = true
    /\ forallb not_create late = true
    /\ index_args Sim.settings = index_args st
    /\ Sim.config "VECTOR_SEARCH_ENDPOINT_NAME"
       = Some (IndexArgs.endpoint_name (index_args Sim.settings))
    /\ Sim.config "embedding_model_endpoint_name"
       = Some (IndexArgs.embedding_model_endpoint_name (index_args Sim.settings))
    /\ Sim.config "catalog" = Some (CATALOG st)
    /\ Sim.config "database" = Some (SCHEMA st)
    /\ Sim.config "vector_search_index" = Some (VS_INDX st)
    /\ IndexArgs.index_name (index_args Sim.settings)
       = CATALOG st ++ "." ++ SCHEMA st ++ "." ++ VS_INDX st
    /\ IndexArgs.source_table_name (index_args Sim.settings)
       = CATALOG st ++ "." ++ SCHEMA st ++ ".billing_faq_dataset".
Proof.
  apply (index_creation_follows_fixed_calls Sim.platform Sim.config 3 Sim.empty_world
           (index_args Sim.settings) None).
  vm_compute. do 9 right. left. reflexivity.
Defined.

(** ** The table is ready before the index is created *)





(** ** A run in which everything succeeds *)

(** X10.  When the configuration has its five keys, every call returns and
    the index is ONLINE at poll [n + 1], a run that is followed for more
    than [n] polls returns the rows of the ANN search and of the hybrid
    search, in this order and unchanged.  It made the ten calls up to the
    creation of the index, the [n + 1] polls with a five-second sleep
    after each but the last, and the two lookups and searches; it printed
    the creating line, [n] waiting lines and the ready line, and nothing
    else. *)
Theorem notebook_returns_both_results :
  forall (P : Platform) (config : Config) (fuel : nat) (st : Settings)
         (w w1 w2 w3 w4 w5 w6 w7 w8 w9 w10 w11 w12 w13 w14 w15 : World P)
         (df df' : DataFrame) (h h1 h2 : IndexHandle) (n : nat)
         (ann hybrid : SearchResults),
    config "catalog" = Some (CATALOG st) ->
    config "database" = Some (SCHEMA st) ->
    config "vector_search_index" = Some (VS_INDX st) ->
    config "VECTOR_SEARCH_ENDPOINT_NAME" = Some (VECTOR_SEARCH_ENDPOINT_NAME st) ->
    config "embedding_model_endpoint_name" = Some (embedding_model_endpoint_name st) ->
    vs_index_fullname st = CATALOG st ++ "." ++ SCHEMA st ++ "." ++ VS_INDX st ->
    pip_install P pip_args w = (Ret tt, w1) ->
    restartPython P w1 = (Ret tt, w2) ->
    saveAsTable P "delta" "overwrite" (source_table st) spark_df w2 = (Ret tt, w3) ->
    spark_sql P (select_query st) w3 = (Ret df, w4) ->
    display P df w4 = (Ret tt, w5) ->
    VectorSearchClient P false w5 = (Ret tt, w6) ->
    create_endpoint_and_wait P (VECTOR_SEARCH_ENDPOINT_NAME st) "STANDARD" w6 = (Ret tt, w7) ->
    VectorSearchClient P true w7 = (Ret tt, w8) ->
    spark_sql P (alter_query st) w8 = (Ret df', w9) ->
    create_delta_sync_index P (index_args st) w9 = (Ret h, w10) ->
    polls P h n w10 w11 ->
    (n < fuel)%nat ->
    get_index P (VECTOR_SEARCH_ENDPOINT_NAME st) (vs_index_fullname st) w11 = (Ret h1, w12) ->
    similarity_search P h1 ann_args w12 = (Ret ann, w13) ->
    get_index P (VECTOR_SEARCH_ENDPOINT_NAME st) (vs_index_fullname st) w13 = (Ret h2, w14) ->
    similarity_search P h2 hybrid_args w14 = (Ret hybrid, w15) ->
    notebook P config fuel (start w) =
      (Returned (ann, hybrid),
       mkRun w15
         ([ returned (CPipInstall pip_args);
            returned CRestartPython;
            save_event (source_table st);
            returned (CSparkSql (select_query st));
            returned (CDisplay df);
            returned (CVectorSearchClient false);
            returned (CCreateEndpointAndWait (VECTOR_SEARCH_ENDPOINT_NAME st) "STANDARD");
            returned (CVectorSearchClient true);
            returned (CSparkSql (alter_query st));
            returned (CCreateDeltaSyncIndex (index_args st)) ]
            ++ poll_trace h n
            ++ [ returned (CGetIndex (VECTOR_SEARCH_ENDPOINT_NAME st) (vs_index_fullname st));
                 returned (CSimilaritySearch h1 ann_args);
                 returned (CGetIndex (VECTOR_SEARCH_ENDPOINT_NAME st) (vs_index_fullname st));
                 returned (CSimilaritySearch h2 hybrid_args) ])
         (creating_line st :: repeat waiting_line n ++ [index_ready_line st])).
Proof.
  intros P config fuel st w w1 w2 w3 w4 w5 w6 w7 w8 w9 w10 w11 w12 w13 w14 w15
         df df' h h1 h2 n ann hybrid
         Hc Hd Hv He Hm Hname Hpip Hrestart Hsave Hselect Hdisplay Hclient Hendpoint
         Hclient' Halter Hcreate Hpolls Hlt Hget Hann Hget' Hhybrid.
  assert (Hst : mkSettings (CATALOG st) (SCHEMA st) (VS_INDX st)
                  (VECTOR_SEARCH_ENDPOINT_NAME st) (embedding_model_endpoint_name st)
                  (CATALOG st ++ "." ++ SCHEMA st ++ "." ++ VS_INDX st) = st).
  { destruct st; cbn in *. now subst. }
  unfold notebook, prelude, cell_update_libraries, cell_setup_config, cell_create_dataset,
    cell_select_all, cell_create_endpoint, cell_init_client, try_create_endpoint,
    create_endpoint, config_get, cell_create_index, try_create_index,
    create_index_and_wait, cell_ann_search, cell_hybrid_search, query,
    try_except, bind, invoke, ret, print.
  cbn [start world trace stdout app]. fold pip_args.
  rewrite Hpip. cbn [world trace stdout app].
  rewrite Hrestart. cbn [world trace stdout app].
  rewrite Hc, Hd, Hv, He, Hm, Hst. cbn [world trace stdout app].
  rewrite Hsave. cbn [world trace stdout app].
  rewrite Hselect. cbn [world trace stdout app].
  rewrite Hdisplay. cbn [world trace stdout app].
  rewrite Hclient. cbn [world trace stdout app].
  rewrite Hendpoint. cbn [world trace stdout app].
  rewrite Hclient'. cbn [world trace stdout app].
  rewrite Halter. cbn [world trace stdout app].
  rewrite Hcreate. cbn [world trace stdout app].
  rewrite (proj1 (wait_polls P h n w10 w11 Hpolls fuel _ _) Hlt).
  cbn [world trace stdout app].
  rewrite Hget. cbn [world trace stdout app].
  rewrite Hann. cbn [world trace stdout app].
  rewrite Hget'. cbn [world trace stdout app].
  rewrite Hhybrid. cbn [world trace stdout app].
  unfold save_event, spark_df. rewrite <- !app_assoc. reflexivity.
Qed.

(** On the simulated platform, the first run from an empty world: the
    index is ONLINE at the third poll, after ten seconds. *)
Lemma notebook_returns_both_results_witness :
  notebook Sim.platform Sim.config 3 (start Sim.empty_world) =
    (Returned (firstn 5 faq_data, firstn 5 faq_data),
     mkRun
       (SimWorlds.first_run [select_query Sim.settings; alter_query Sim.settings]
          ["vs_endpoint"] [SimWorlds.an_index Sim.ONLINE] 10)
       ([ returned (CPipInstall pip_args);
          returned CRestartPython;
          save_event (source_table Sim.settings);
          returned (CSparkSql (select_query Sim.settings));
          returned (CDisplay (mkDF [] []));
          returned (CVectorSearchClient false);
          returned (CCreateEndpointAndWait (VECTOR_SEARCH_ENDPOINT_NAME Sim.settings)
                      "STANDARD");
          returned (CVectorSearchClient true);
          returned (CSparkSql (alter_query Sim.settings));
          returned (CCreateDeltaSyncIndex (index_args Sim.settings)) ]
          ++ poll_trace SimWorlds.handle 2
          ++ [ returned (CGetIndex (VECTOR_SEARCH_ENDPOINT_NAME Sim.settings)
                           (vs_index_fullname Sim.settings));
               returned (CSimilaritySearch SimWorlds.handle ann_args);
               returned (CGetIndex (VECTOR_SEARCH_ENDPOINT_NAME Sim.settings)
                           (vs_index_fullname Sim.settings));
               returned (CSimilaritySearch SimWorlds.handle hybrid_args) ])
       (creating_line Sim.settings :: repeat waiting_line 2
          ++ [index_ready_line Sim.settings])).
Proof.
  apply (notebook_returns_both_results Sim.platform Sim.config 3 Sim.settings
           Sim.empty_world Sim.empty_world Sim.empty_world
           (SimWorlds.first_run [] [] [] 0)
           (SimWorlds.first_run [select_query Sim.settings] [] [] 0)
           (SimWorlds.first_run [select_query Sim.settings] [] [] 0)
           (SimWorlds.first_run [select_query Sim.settings] [] [] 0)
           (SimWorlds.first_run [select_query Sim.settings] ["vs_endpoint"] [] 0)
           (SimWorlds.first_run [select_query Sim.settings] ["vs_endpoint"] [] 0)
           (SimWorlds.first_run [select_query Sim.settings; alter_query Sim.settings]
              ["vs_endpoint"] [] 0)
           (SimWorlds.first_run [select_query Sim.settings; alter_query Sim.settings]
              ["vs_endpoint"] [SimWorlds.an_index Sim.PROVISIONING] 0)
           (SimWorlds.first_run [select_query Sim.settings; alter_query Sim.settings]
              ["vs_endpoint"] [SimWorlds.an_index Sim.ONLINE] 10)
           (SimWorlds.first_run [select_query Sim.settings; alter_query Sim.settings]
              ["vs_endpoint"] [SimWorlds.an_index Sim.ONLINE] 10)
           (SimWorlds.first_run [select_query Sim.settings; alter_query Sim.settings]
              ["vs_endpoint"] [SimWorlds.an_index Sim.ONLINE] 10)
           (SimWorlds.first_run [select_query Sim.settings; alter_query Sim.settings]
              ["vs_endpoint"] [SimWorlds.an_index Sim.ONLINE] 10)
           (SimWorlds.first_run [select_query Sim.settings; alter_query Sim.settings]
              ["vs_endpoint"] [SimWorlds.an_index Sim.ONLINE] 10)
           (mkDF [] []) (mkDF [] []) SimWorlds.handle SimWorlds.handle SimWorlds.handle
           2 (firstn 5 faq_data) (firstn 5 faq_data));
    try (vm_compute; reflexivity).
  apply polls_wait
      with (w1 := SimWorlds.first_run [select_query Sim.settings; alter_query Sim.settings]
                    ["vs_endpoint"] [SimWorlds.an_index Sim.PROVISIONING] 0)
           (ds := "PROVISIONING"); [reflexivity | reflexivity |].
    apply polls_wait
      with (w1 := SimWorlds.first_run [select_query Sim.settings; alter_query Sim.settings]
                    ["vs_endpoint"] [SimWorlds.an_index Sim.SYNCING] 5)
           (ds := "SYNCING"); [reflexivity | reflexivity |].
    apply polls_online with (ds := "ONLINE"); reflexivity.
Defined.

(** ** What the index cell prints *)

(** X11.  An index cell that returns has printed the creating line, then
    some number [n] of waiting lines, then exactly one of two lines.  It is
    the ready line only if this run created the index and, after [n] polls
    that found it not ONLINE, a poll found it ONLINE.  It is the
    already-exists line only if the last call of the cell, the creation or a
    poll, raised an exception that the handler absorbed. *)
Theorem index_cell_verdict :
  forall (P : Platform) (fuel : nat) (st : Settings) (s s' : Run (World P)),
    cell_create_index P fuel st s = (Returned tt, s') ->
    exists n : nat,
      (n <= fuel)%nat
      /\ ((stdout s' =
             (stdout s ++ creating_line st :: repeat waiting_line n
                ++ [index_ready_line st])%list
           /\ exists df w0 h w1,
                spark_sql P (alter_query st) (world s) = (Ret df, w0)
                /\ create_delta_sync_index P (index_args st) w0 = (Ret h, w1)
                /\ polls P h n w1 (world s'))
          \/ (stdout s' =
                (stdout s ++ creating_line st :: repeat waiting_line n
                   ++ [index_exists_line st])%list
              /\ exists tr c e,
                   trace s' = (tr ++ [(c, Some e)])%list
                   /\ in_index_try c = true
                   /\ index_handler_absorbs (exc_str e) = true)).
Proof.
  intros P fuel st s s' H.
  destruct (spark_sql P (alter_query st) (world s)) as [[df|e] w0] eqn:Halter.
  2:{ unfold cell_create_index in H. unfold bind at 1, invoke in H.
      rewrite Halter in H. discriminate H. }
  rewrite (cell_create_index_altered P fuel st s df w0 Halter) in H.
  set (s0 := mkRun w0 (trace s ++ [returned (CSparkSql (alter_query st))])
               (stdout s ++ [creating_line st])) in H.
  destruct (create_delta_sync_index P (index_args st) w0) as [[h|e] w1] eqn:Hcreate.
  - rewrite (try_create_index_polled P st fuel s0 h w1 Hcreate) in H.
    destruct (wait_until_online P fuel h _) as [[[]|e|] s2] eqn:Hwait;
      [| |discriminate H].
    + inversion H; subst s'; clear H.
      destruct (wait_shape P h fuel _ _ _ Hwait)
        as (n & w2 & Hle & Hwaits & Hout & _ & (ds & Hd & Hon) & _).
      cbn [world trace stdout] in *.
      exists n. split; [exact Hle|]. left. split.
      * rewrite Hout. subst s0. cbn [stdout]. now rewrite <- !app_assoc.
      * exists df, w0, h, w1. repeat split; auto.
        exact (waits_then_online P h n w1 w2 (world s2) ds Hwaits Hd Hon).
    + rewrite index_handler_run in H.
      destruct (index_handler_absorbs (exc_str e)) eqn:Habs; [|discriminate H].
      inversion H; subst s'; clear H.
      destruct (wait_shape P h fuel _ _ _ Hwait)
        as (n & w2 & Hle & _ & Hout & _ & [[_ Htr] | (d & _ & Hmissing & _)]).
      * cbn [world trace stdout] in *.
        exists n. split; [exact Hle|]. right. split.
        -- rewrite Hout. subst s0. cbn [stdout]. now rewrite <- !app_assoc.
        -- eexists _, (CDescribe h), e. split; [|now split].
           rewrite Htr. rewrite app_assoc. reflexivity.
      * rewrite (missing_state_not_absorbed d e Hmissing) in Habs. discriminate Habs.
  - rewrite (try_create_index_rejected P fuel st s0 e w1 Hcreate) in H.
    destruct (index_handler_absorbs (exc_str e)) eqn:Habs; [|discriminate H].
    inversion H; subst s'; clear H. cbn [world trace stdout].
    exists O. split; [lia|]. right. split.
    + subst s0. cbn. now rewrite <- !app_assoc.
    + now exists (trace s0), (CCreateDeltaSyncIndex (index_args st)), e.
Qed.

(** On the simulated platform: a cell that finds the index existing prints
    the creating line and the already-exists line. *)
Lemma index_cell_verdict_witness :
  exists n : nat,
    (n <= 3)%nat
    /\ ((stdout (mkRun (SimWorlds.altered Sim.ONLINE)
                   [returned (CSparkSql (alter_query Sim.settings));
                    raised (CCreateDeltaSyncIndex (index_args Sim.settings))
                      Sim.already_exists_index]
                   [creating_line Sim.settings; index_exists_line Sim.settings]) =
           (stdout (start (SimWorlds.with_index Sim.ONLINE true 0))
              ++ creating_line Sim.settings :: repeat waiting_line n
              ++ [index_ready_line Sim.settings])%list
         /\ exists df w0 h w1,
              spark_sql Sim.platform (alter_query Sim.settings)
                (world (start (SimWorlds.with_index Sim.ONLINE true 0))) = (Ret df, w0)
              /\ create_delta_sync_index Sim.platform (index_args Sim.settings) w0
                 = (Ret h, w1)
              /\ polls Sim.platform h n w1
                   (world (mkRun (SimWorlds.altered Sim.ONLINE)
                             [returned (CSparkSql (alter_query Sim.settings));
                              raised (CCreateDeltaSyncIndex (index_args Sim.settings))
                                Sim.already_exists_index]
                             [creating_line Sim.settings; index_exists_line Sim.settings])))
        \/ (stdout (mkRun (SimWorlds.altered Sim.ONLINE)
                      [returned (CSparkSql (alter_query Sim.settings));
                       raised (CCreateDeltaSyncIndex (index_args Sim.settings))
                         Sim.already_exists_index]
                      [creating_line Sim.settings; index_exists_line Sim.settings]) =
              (stdout (start (SimWorlds.with_index Sim.ONLINE true 0))
                 ++ creating_line Sim.settings :: repeat waiting_line n
                 ++ [index_exists_line Sim.settings])%list
            /\ exists tr c e,
                 trace (mkRun (SimWorlds.altered Sim.ONLINE)
                          [returned (CSparkSql (alter_query Sim.settings));
                           raised (CCreateDeltaSyncIndex (index_args Sim.settings))
                             Sim.already_exists_index]
                          [creating_line Sim.settings; index_exists_line Sim.settings])
                 = (tr ++ [(c, Some e)])%list
                 /\ in_index_try c = true
                 /\ index_handler_absorbs (exc_str e) = true)).
Proof.
  apply (index_cell_verdict Sim.platform 3 Sim.settings
           (start (SimWorlds.with_index Sim.ONLINE true 0))).
  vm_compute. reflexivity.
Defined.

(** ** A second run, from the top *)

(** X12.  A second run, in which the endpoint and the index already exist:
    when the two creation calls raise errors that carry their
    already-exists codes and every other call returns, the run returns the
    rows of the two searches.  It overwrites the table with the dataset
    again and runs ALTER TABLE again, it never calls [describe()] and never
    sleeps, and it prints the two already-exists lines around the creating
    line. *)
Theorem second_run_returns_both_results :
  forall (P : Platform) (config : Config) (fuel : nat) (st : Settings)
         (w w1 w2 w3 w4 w5 w6 w7 w8 w9 w10 w11 w12 w13 w14 : World P)
         (df df' : DataFrame) (e e' : PyExc) (h1 h2 : IndexHandle)
         (ann hybrid : SearchResults),
    config "catalog" = Some (CATALOG st) ->
    config "database" = Some (SCHEMA st) ->
    config "vector_search_index" = Some (VS_INDX st) ->
    config "VECTOR_SEARCH_ENDPOINT_NAME" = Some (VECTOR_SEARCH_ENDPOINT_NAME st) ->
    config "embedding_model_endpoint_name" = Some (embedding_model_endpoint_name st) ->
    vs_index_fullname st = CATALOG st ++ "." ++ SCHEMA st ++ "." ++ VS_INDX st ->
    pip_install P pip_args w = (Ret tt, w1) ->
    restartPython P w1 = (Ret tt, w2) ->
    saveAsTable P "delta" "overwrite" (source_table st) spark_df w2 = (Ret tt, w3) ->
    spark_sql P (select_query st) w3 = (Ret df, w4) ->
    display P df w4 = (Ret tt, w5) ->
    VectorSearchClient P false w5 = (Ret tt, w6) ->
    create_endpoint_and_wait P (VECTOR_SEARCH_ENDPOINT_NAME st) "STANDARD" w6 = (Exc e, w7) ->
    str_in endpoint_marker (exc_str e) = true ->
    VectorSearchClient P true w7 = (Ret tt, w8) ->
    spark_sql P (alter_query st) w8 = (Ret df', w9) ->
    create_delta_sync_index P (index_args st) w9 = (Exc e', w10) ->
    str_in index_marker (exc_str e') = true ->
    get_index P (VECTOR_SEARCH_ENDPOINT_NAME st) (vs_index_fullname st) w10 = (Ret h1, w11) ->
    similarity_search P h1 ann_args w11 = (Ret ann, w12) ->
    get_index P (VECTOR_SEARCH_ENDPOINT_NAME st) (vs_index_fullname st) w12 = (Ret h2, w13) ->
    similarity_search P h2 hybrid_args w13 = (Ret hybrid, w14) ->
    notebook P config fuel (start w) =
      (Returned (ann, hybrid),
       mkRun w14
         [ returned (CPipInstall pip_args);
           returned CRestartPython;
           save_event (source_table st);
           returned (CSparkSql (select_query st));
           returned (CDisplay df);
           returned (CVectorSearchClient false);
           raised (CCreateEndpointAndWait (VECTOR_SEARCH_ENDPOINT_NAME st) "STANDARD") e;
           returned (CVectorSearchClient true);
           returned (CSparkSql (alter_query st));
           raised (CCreateDeltaSyncIndex (index_args st)) e';
           returned (CGetIndex (VECTOR_SEARCH_ENDPOINT_NAME st) (vs_index_fullname st));
           returned (CSimilaritySearch h1 ann_args);
           returned (CGetIndex (VECTOR_SEARCH_ENDPOINT_NAME st) (vs_index_fullname st));
           returned (CSimilaritySearch h2 hybrid_args) ]
         [ endpoint_exists_line st; creating_line st; index_exists_line st ]).
Proof.
  intros P config fuel st w w1 w2 w3 w4 w5 w6 w7 w8 w9 w10 w11 w12 w13 w14
         df df' e e' h1 h2 ann hybrid
         Hc Hd Hv He Hm Hname Hpip Hrestart Hsave Hselect Hdisplay Hclient Hendpoint
         Hmarker Hclient' Halter Hcreate Hmarker' Hget Hann Hget' Hhybrid.
  assert (Hst : mkSettings (CATALOG st) (SCHEMA st) (VS_INDX st)
                  (VECTOR_SEARCH_ENDPOINT_NAME st) (embedding_model_endpoint_name st)
                  (CATALOG st ++ "." ++ SCHEMA st ++ "." ++ VS_INDX st) = st).
  { destruct st; cbn in *. now subst. }
  unfold notebook, prelude, cell_update_libraries, cell_setup_config, cell_create_dataset,
    cell_select_all, cell_create_endpoint, cell_init_client, try_create_endpoint,
    create_endpoint, endpoint_handler, config_get, cell_create_index, try_create_index,
    create_index_and_wait, index_handler, cell_ann_search, cell_hybrid_search, query,
    endpoint_handler_absorbs, index_handler_absorbs, try_except, bind, invoke, ret, print.
  cbn [start world trace stdout app]. fold pip_args.
  rewrite Hpip. cbn [world trace stdout app].
  rewrite Hrestart. cbn [world trace stdout app].
  rewrite Hc, Hd, Hv, He, Hm, Hst. cbn [world trace stdout app].
  rewrite Hsave. cbn [world trace stdout app].
  rewrite Hselect. cbn [world trace stdout app].
  rewrite Hdisplay. cbn [world trace stdout app].
  rewrite Hclient. cbn [world trace stdout app].
  rewrite Hendpoint. cbn [world trace stdout app].
  rewrite Hmarker. cbn [orb world trace stdout app].
  rewrite Hclient'. cbn [world trace stdout app].
  rewrite Halter. cbn [world trace stdout app].
  rewrite Hcreate. cbn [world trace stdout app].
  rewrite Hmarker'. cbn [orb world trace stdout app].
  rewrite Hget. cbn [world trace stdout app].
  rewrite Hann. cbn [world trace stdout app].
  rewrite Hget'. cbn [world trace stdout app].
  rewrite Hhybrid. cbn [world trace stdout app].
  reflexivity.
Qed.

(** On the simulated platform, the run that follows a first complete run. *)
Lemma second_run_returns_both_results_witness :
  notebook Sim.platform Sim.config 3 (start SimWorlds.after_first_run) =
    (Returned (firstn 5 faq_data, firstn 5 faq_data),
     mkRun
       (SimWorlds.first_run
          [select_query Sim.settings; alter_query Sim.settings;
           select_query Sim.settings; alter_query Sim.settings]
          ["vs_endpoint"] [SimWorlds.an_index Sim.ONLINE] 10)
       [ returned (CPipInstall pip_args);
         returned CRestartPython;
         save_event (source_table Sim.settings);
         returned (CSparkSql (select_query Sim.settings));
         returned (CDisplay (mkDF [] []));
         returned (CVectorSearchClient false);
         raised (CCreateEndpointAndWait (VECTOR_SEARCH_ENDPOINT_NAME Sim.settings)
                   "STANDARD") Sim.already_exists_endpoint;
         returned (CVectorSearchClient true);
         returned (CSparkSql (alter_query Sim.settings));
         raised (CCreateDeltaSyncIndex (index_args Sim.settings)) Sim.already_exists_index;
         returned (CGetIndex (VECTOR_SEARCH_ENDPOINT_NAME Sim.settings)
                     (vs_index_fullname Sim.settings));
         returned (CSimilaritySearch SimWorlds.handle ann_args);
         returned (CGetIndex (VECTOR_SEARCH_ENDPOINT_NAME Sim.settings)
                     (vs_index_fullname Sim.settings));
         returned (CSimilaritySearch SimWorlds.handle hybrid_args) ]
       [ endpoint_exists_line Sim.settings; creating_line Sim.settings;
         index_exists_line Sim.settings ]).
Proof.
  apply (second_run_returns_both_results Sim.platform Sim.config 3 Sim.settings
           SimWorlds.after_first_run SimWorlds.after_first_run SimWorlds.after_first_run
           SimWorlds.after_first_run
           (SimWorlds.rerun [select_query Sim.settings])
           (SimWorlds.rerun [select_query Sim.settings])
           (SimWorlds.rerun [select_query Sim.settings])
           (SimWorlds.rerun [select_query Sim.settings])
           (SimWorlds.rerun [select_query Sim.settings])
           (SimWorlds.rerun [select_query Sim.settings; alter_query Sim.settings])
           (SimWorlds.rerun [select_query Sim.settings; alter_query Sim.settings])
           (SimWorlds.rerun [select_query Sim.settings; alter_query Sim.settings])
           (SimWorlds.rerun [select_query Sim.settings; alter_query Sim.settings])
           (SimWorlds.rerun [select_query Sim.settings; alter_query Sim.settings])
           (SimWorlds.rerun [select_query Sim.settings; alter_query Sim.settings])
           (mkDF [] []) (mkDF [] []) Sim.already_exists_endpoint Sim.already_exists_index
           SimWorlds.handle SimWorlds.handle (firstn 5 faq_data) (firstn 5 faq_data));
    vm_compute; reflexivity.
Defined.
